(** * omero_oauth/views.py: the OAuth2 login bridge, embedded and verified

    The module is a chain of request handlers that call three outside
    services: the OAuth2 client library, the image server's administrative
    gateway and the hosting web framework.  The handlers are embedded as
    programs of a state-and-exception monad.  Every call to an outside
    service is recorded in a trace and answered by a collaborator function
    that the development takes as a parameter; the handlers themselves are
    translated statement by statement. *)

From Stdlib Require Import ZArith String Ascii List.
From stdpp Require Import base option list strings gmap.

Open Scope string_scope.
Open Scope Z_scope.

(** ** Exceptions and results *)

(** The exception classes the module raises itself or lets through.  All of
    them derive from Python's [Exception]. *)
Inductive exn : Type :=
| PermissionDenied (msg : string)
| KeyError (key : string)
| ValueError (msg : string)
| AttributeError (name : string)
| AssertionError
| Exception_ (args : list string)
| CollaboratorError (what : string).

Inductive result (A : Type) : Type :=
| Ok (a : A)
| Raise (e : exn).
Arguments Ok {A} a.
Arguments Raise {A} e.



(** ** Keyword formatting of templates

    [_expand_template] calls the template's [format] method with the fields
    of [args] as keyword arguments.  The formatter walks the
    template from left to right: text is copied, [{{] and [}}] stand for one
    brace, and [{body}] is a replacement field, closed by the brace that
    balances it.  A field is looked up and rendered when it is met, so the
    first failure from the left is the one raised. *)

Definition lbrace : ascii := "{"%char.
Definition rbrace : ascii := "}"%char.

Definition is_digit (c : ascii) : bool :=
  let n := nat_of_ascii c in (Nat.leb 48 n && Nat.leb n 57)%bool.

Fixpoint all_digits (s : string) : bool :=
  match s with
  | EmptyString => true
  | String c r => (is_digit c && all_digits r)%bool
  end.

(** Characters that give a field more structure than a bare name: a
    conversion ([!]), a format specification ([:]), an attribute ([.]), an
    index ([[]) or a nested brace. *)
Definition is_field_punct (c : ascii) : bool :=
  (Ascii.eqb c "!" || Ascii.eqb c ":" || Ascii.eqb c "." || Ascii.eqb c "["
   || Ascii.eqb c lbrace || Ascii.eqb c rbrace)%bool.

Fixpoint has_field_punct (s : string) : bool :=
  match s with
  | EmptyString => false
  | String c r => (is_field_punct c || has_field_punct r)%bool
  end.

(** A plain field is a keyword name: not empty, not a number (numbers and
    the empty name are positional), and without punctuation. *)
Definition plain_field (body : string) : bool :=
  (negb (String.eqb body "") && negb (all_digits body)
   && negb (has_field_punct body))%bool.

(** Where the formatter stands: in text, just after a brace met in text
    (it may be the first of a doubled one), or inside a field, [depth] braces
    deep, with the [body] read so far. *)
Inductive scan_mode : Type :=
| InText
| AfterOpen
| AfterClose
| InField (depth : nat) (body : string).

Definition snoc_char (s : string) (c : ascii) : string :=
  s ++ String c EmptyString.

Definition single_open : exn :=
  ValueError "Single '{' encountered in format string".
Definition single_close : exn :=
  ValueError "Single '}' encountered in format string".
Definition unmatched_open : exn :=
  ValueError "unmatched '{' in format".

Section Format.

(** What the built-in formatter does with a field that is not a plain
    keyword name (positional, or with conversion, specification, attribute
    or index): taken as given. *)
Variable format_other_field : string -> gmap string string -> result string.

Definition render_field (args : gmap string string) (body : string)
  : result string :=
  if plain_field body then
    match args !! body with
    | Some v => Ok v
    | None => Raise (KeyError body)
    end
  else format_other_field body args.

Definition prepend (s : string) (r : result string) : result string :=
  match r with
  | Ok rest => Ok (s ++ rest)
  | Raise e => Raise e
  end.

Fixpoint format_scan (args : gmap string string) (m : scan_mode)
         (s : string) {struct s} : result string :=
  match s with
  | EmptyString =>
      match m with
      | InText => Ok ""
      | AfterOpen => Raise single_open
      | AfterClose => Raise single_close
      | InField _ _ => Raise unmatched_open
      end
  | String c r =>
      let in_field (depth : nat) (body : string) :=
        if Ascii.eqb c lbrace then
          format_scan args (InField (S depth) (snoc_char body c)) r
        else if Ascii.eqb c rbrace then
          match depth with
          | S (S d) => format_scan args (InField (S d) (snoc_char body c)) r
          | _ =>
              match render_field args body with
              | Ok v => prepend v (format_scan args InText r)
              | Raise e => Raise e
              end
          end
        else format_scan args (InField depth (snoc_char body c)) r in
      match m with
      | InText =>
          if Ascii.eqb c lbrace then format_scan args AfterOpen r
          else if Ascii.eqb c rbrace then format_scan args AfterClose r
          else prepend (String c EmptyString) (format_scan args InText r)
      | AfterOpen =>
          if Ascii.eqb c lbrace
          then prepend "{" (format_scan args InText r)
          else in_field 1%nat ""
      | AfterClose =>
          if Ascii.eqb c rbrace
          then prepend "}" (format_scan args InText r)
          else Raise single_close
      | InField depth body => in_field depth body
      end
  end.

Definition format (template : string) (args : gmap string string)
  : result string :=
  format_scan args InText template.

End Format.

(** The fields of a template, in the order the formatter meets them, or
    [None] when the braces of the template do not balance.  It follows the
    same automaton as [format_scan] and looks nothing up. *)
Fixpoint scan_fields (m : scan_mode) (s : string) {struct s}
  : option (list string) :=
  match s with
  | EmptyString =>
      match m with
      | InText => Some []
      | _ => None
      end
  | String c r =>
      let in_field (depth : nat) (body : string) :=
        if Ascii.eqb c lbrace then
          scan_fields (InField (S depth) (snoc_char body c)) r
        else if Ascii.eqb c rbrace then
          match depth with
          | S (S d) => scan_fields (InField (S d) (snoc_char body c)) r
          | _ => cons body <$> scan_fields InText r
          end
        else scan_fields (InField depth (snoc_char body c)) r in
      match m with
      | InText =>
          if Ascii.eqb c lbrace then scan_fields AfterOpen r
          else if Ascii.eqb c rbrace then scan_fields AfterClose r
          else scan_fields InText r
      | AfterOpen =>
          if Ascii.eqb c lbrace then scan_fields InText r
          else in_field 1%nat ""
      | AfterClose =>
          if Ascii.eqb c rbrace then scan_fields InText r else None
      | InField depth body => in_field depth body
      end
  end.

(** The fields of a template made of text, doubled braces and plain keyword
    fields only; [None] for any other template. *)
Definition template_fields (template : string) : option (list string) :=
  match scan_fields InText template with
  | Some fs => if forallb plain_field fs then Some fs else None
  | None => None
  end.


(** ** Data of the handlers *)

(** A server connection ([conn]) is an opaque handle of the framework. *)
Definition conn : Type := nat.

(** [Connector(server_id, is_secure)]. *)
Record connector : Type := Connector {
  server_id : Z;
  is_secure : bool
}.

(** What the module keeps in [request.session]: the CSRF state (text) under
    [oauth_state] and the connector under [connector]. *)
Inductive session_value : Type :=
| SText (s : string)
| SConnector (c : connector).

(** Python truth of a session value: empty text is false, objects are true. *)
Definition session_truthy (v : option session_value) : bool :=
  match v with
  | None => false
  | Some (SText s) => negb (String.eqb s "")
  | Some (SConnector _) => true
  end.

Definition text_truthy (v : option string) : bool :=
  match v with
  | None => false
  | Some s => negb (String.eqb s "")
  end.

Record request : Type := Request {
  GET : gmap string string;
  META : gmap string string
}.

(** Keyword arguments of [index] and [handle_logged_in]. *)
Record kwargs : Type := Kwargs {
  kw_conn : option conn;
  kw_server_id : option Z
}.

Inductive response : Type :=
| HttpResponse (body : string)
| HttpResponseRedirect (url : string).

(** The keyword arguments of [createExperimenter]. *)
Record experimenter : Type := Experimenter {
  omeName : string;
  firstName : string;
  lastName : string;
  email : string;
  isAdmin : bool;
  isActive : bool;
  defaultGroupId : Z;
  otherGroupIds : list Z;
  password : option string
}.

(** [oauth_settings], Django's [settings] and the two constants of
    [omero_version] that the module reads. *)
Record settings : Type := Settings {
  OAUTH_CLIENT_ID : string;
  OAUTH_CLIENT_SECRET : string;
  OAUTH_CLIENT_SCOPE : string;
  OAUTH_CLIENT_NAME : string;
  OAUTH_URL_AUTHORIZATION : string;
  OAUTH_URL_TOKEN : string;
  OAUTH_URL_USERINFO : string;
  OAUTH_USER_NAME : string;
  OAUTH_USER_EMAIL : string;
  OAUTH_USER_FIRSTNAME : string;
  OAUTH_USER_LASTNAME : string;
  OAUTH_HOST : string;
  OAUTH_PORT : Z;
  OAUTH_ADMIN_USERNAME : string;
  OAUTH_ADMIN_PASSWORD : string;
  OAUTH_GROUP_NAME : string;
  OAUTH_GROUP_NAME_TEMPLATETIME : bool;
  OAUTH_GROUP_PERMS : string;
  OAUTH_USER_TIMEOUT : Z;
  LOGIN_REDIRECT : option string;
  LOGIN_LOGO : option string;
  SECURE : bool;
  CHECK_VERSION : bool;
  UPGRADES_URL : option string;
  omero_version : string;
  build_year : string
}.

Definition USERAGENT : string := "OMERO.oauth".

(** ** Calls to the outside, as events *)

Inductive event : Type :=
| EvGetConnection (sid : option Z)
| EvParseUrl (setting : string)
| EvReverse (name : string)
| EvAuthorizationUrl (client_id scope url : string)
| EvRender (template : string) (context : gmap string string)
| EvFetchToken (client_id : string) (state : session_value)
    (token_url client_secret code : string)
| EvUserinfo (client_id : string) (state : session_value) (token url : string)
| EvAdminConnect (host : string) (port : Z) (username passwd : string)
| EvGetObject (kind attr value : string)
| EvNow (fmt : string)
| EvCreateGroup (name perms : string)
| EvCreateExperimenter (e : experimenter)
| EvGetSessionService
| EvCreateSession (name eventType : string) (timeout : Z)
| EvAdminClose
| EvCheckVersion (c : connector) (agent : string)
| EvCreateConnection (c : connector) (agent username passwd userip : string)
| EvGetUpgradesUrl (c : conn)
| EvUpgradeCheck (url : string)
| EvConnClose (c : conn).

(** Network calls to the identity provider. *)
Definition is_provider_call (e : event) : bool :=
  match e with
  | EvFetchToken _ _ _ _ _ | EvUserinfo _ _ _ _ => true
  | _ => false
  end.

Definition is_token_exchange (e : event) : bool :=
  match e with EvFetchToken _ _ _ _ _ => true | _ => false end.

(** Calls on the administrative connection, from opening it to closing it. *)
Definition is_admin_call (e : event) : bool :=
  match e with
  | EvAdminConnect _ _ _ _ | EvGetObject _ _ _ | EvCreateGroup _ _
  | EvCreateExperimenter _ | EvGetSessionService | EvCreateSession _ _ _
  | EvAdminClose => true
  | _ => false
  end.

Definition is_account_lookup (e : event) : bool :=
  match e with EvGetObject "Experimenter" _ _ => true | _ => false end.

Definition is_create_group (e : event) : bool :=
  match e with EvCreateGroup _ _ => true | _ => false end.

Definition is_create_user (e : event) : bool :=
  match e with EvCreateExperimenter _ => true | _ => false end.

Definition is_creation (e : event) : bool :=
  (is_create_group e || is_create_user e)%bool.

Definition is_session_issuance (e : event) : bool :=
  match e with EvCreateSession _ _ _ => true | _ => false end.

Definition is_admin_connect (e : event) : bool :=
  match e with EvAdminConnect _ _ _ _ => true | _ => false end.

Definition is_admin_close (e : event) : bool :=
  match e with EvAdminClose => true | _ => false end.

Definition is_render (e : event) : bool :=
  match e with EvRender _ _ => true | _ => false end.

Definition is_framework_login (e : event) : bool :=
  match e with EvCreateConnection _ _ _ _ _ => true | _ => false end.

(** How many events of a kind a trace holds. *)
Definition count_events (p : event -> bool) (t : list event) : nat :=
  length (List.filter p t).

(** ** The monad of the handlers

    A handler runs on a state made of the outside world, the session of the
    request and the trace of calls made so far; it ends with a value or with
    an exception. *)

Record state (W : Type) : Type := State {
  world : W;
  session : gmap string session_value;
  trace : list event
}.
Arguments State {W} _ _ _.
Arguments world {W} _.
Arguments session {W} _.
Arguments trace {W} _.

Definition M (W A : Type) : Type := state W -> result A * state W.

Definition ret {W A} (a : A) : M W A := fun st => (Ok a, st).

Definition bind {W A B} (c : M W A) (k : A -> M W B) : M W B :=
  fun st =>
    match c st with
    | (Ok a, st') => k a st'
    | (Raise e, st') => (Raise e, st')
    end.

Definition raise {W A} (e : exn) : M W A := fun st => (Raise e, st).

#[global] Instance M_ret {W} : MRet (M W) := fun A => @ret W A.
#[global] Instance M_bind {W} : MBind (M W) := fun A B k c => @bind W A B c k.

(** [try: body except Exception: handler]. *)
Definition try_except {W A} (body : M W A) (handler : M W A) : M W A :=
  fun st =>
    match body st with
    | (Ok a, st') => (Ok a, st')
    | (Raise _, st') => handler st'
    end.

(** [try: body except AttributeError: handler]. *)
Definition try_except_attribute {W A} (body : M W A) (handler : M W A)
  : M W A :=
  fun st =>
    match body st with
    | (Raise (AttributeError _), st') => handler st'
    | other => other
    end.

(** [try: body finally: cleanup].  The cleanup runs on every way out of the
    body; an exception of the cleanup replaces the outcome of the body. *)
Definition try_finally {W A} (body : M W A) (cleanup : M W unit) : M W A :=
  fun st =>
    match body st with
    | (r, st') =>
        match cleanup st' with
        | (Ok _, st'') => (r, st'')
        | (Raise e, st'') => (Raise e, st'')
        end
    end.

(** A call to a collaborator: the event is logged, the collaborator answers
    and moves the world. *)
Definition call {W A} (ev : event) (op : W -> result A * W) : M W A :=
  fun st =>
    match op (world st) with
    | (r, w') => (r, State w' (session st) (trace st ++ [ev]))
    end.

Definition session_get {W} (key : string) : M W (option session_value) :=
  fun st => (Ok (session st !! key), st).

Definition session_set {W} (key : string) (v : session_value) : M W unit :=
  fun st => (Ok tt, State (world st) (<[key := v]> (session st)) (trace st)).

(** Lifting a pure computation that may raise. *)
Definition lift {W A} (r : result A) : M W A := fun st => (r, st).

(** ** The collaborators

    The three outside services, as functions on the world.  Every call may
    raise.  Building a response object and reading the client address off
    the request are taken to return. *)

Record collaborators (W : Type) : Type := Collaborators {
  (* the hosting framework *)
  co_get_connection :
    option Z -> request -> gmap string session_value -> W ->
    result (option conn) * gmap string session_value * W;
  co_parse_url : string -> W -> result string * W;
  co_reverse : string -> W -> result string * W;
  co_render :
    string -> gmap string string -> request -> gmap string session_value ->
    W -> result string * W;
  co_get_client_ip : gmap string string -> string;
  co_check_version : connector -> string -> W -> result bool * W;
  co_create_connection :
    connector -> string -> string -> string -> string -> W ->
    result (option conn) * W;
  co_getUpgradesUrl : conn -> W -> result string * W;
  co_upgradeCheck : string -> W -> result unit * W;
  co_conn_close : conn -> W -> result unit * W;
  (* the OAuth2 client library *)
  co_authorization_url :
    string -> string -> string -> W -> result (string * string) * W;
  co_fetch_token :
    string -> session_value -> string -> string -> string -> W ->
    result string * W;
  co_userinfo :
    string -> session_value -> string -> string -> W ->
    result (gmap string string) * W;
  (* the built-in formatter on fields that are not plain names *)
  co_format_other_field : string -> gmap string string -> result string;
  (* the administrative gateway *)
  co_admin_connect : string -> Z -> string -> string -> W -> result bool * W;
  co_getObject : string -> string -> string -> W -> result (option Z) * W;
  co_createGroup : string -> string -> W -> result Z * W;
  co_createExperimenter : experimenter -> W -> result Z * W;
  co_getSessionService : W -> result unit * W;
  co_createSessionWithTimeout :
    string -> string -> Z -> W -> result string * W;
  co_admin_close : W -> result unit * W;
  (* the clock *)
  co_now_strftime : string -> W -> result string * W
}.
Arguments co_get_connection {W} _.
Arguments co_parse_url {W} _.
Arguments co_reverse {W} _.
Arguments co_render {W} _.
Arguments co_get_client_ip {W} _.
Arguments co_check_version {W} _.
Arguments co_create_connection {W} _.
Arguments co_getUpgradesUrl {W} _.
Arguments co_upgradeCheck {W} _.
Arguments co_conn_close {W} _.
Arguments co_authorization_url {W} _.
Arguments co_fetch_token {W} _.
Arguments co_userinfo {W} _.
Arguments co_format_other_field {W} _.
Arguments co_admin_connect {W} _.
Arguments co_getObject {W} _.
Arguments co_createGroup {W} _.
Arguments co_createExperimenter {W} _.
Arguments co_getSessionService {W} _.
Arguments co_createSessionWithTimeout {W} _.
Arguments co_admin_close {W} _.
Arguments co_now_strftime {W} _.

(** ** The handlers of views.py

    One definition per function of the module, under its name, statement by
    statement.  Calls to [logger] are left out: logging returns and no
    property below is about it.  A connector is recorded by the arguments it
    was built with. *)

Section Views.

Context {W : Type}.
Variable co : collaborators W.
Variable cfg : settings.

(** [check.get_connection(server_id, request)]: it reads the request and
    its session and may write the session. *)
Definition get_connection (sid : option Z) (rq : request)
  : M W (option conn) :=
  fun st =>
    match co_get_connection co sid rq (session st) (world st) with
    | (r, sess', w') =>
        (r, State w' sess' (trace st ++ [EvGetConnection sid]))
    end.

(** [parse_url(settings.LOGIN_REDIRECT)]. *)
Definition parse_login_redirect : M W string :=
  match LOGIN_REDIRECT cfg with
  | Some lr => call (EvParseUrl lr) (co_parse_url co lr)
  | None => raise (AttributeError "LOGIN_REDIRECT")
  end.

Definition handle_logged_in (rq : request) (kw : kwargs)
  : M W (option response) :=
  c ← match kw_conn kw with
      | None => try_except (get_connection (kw_server_id kw) rq) (mret None)
      | Some c => mret (Some c)
      end;
  match c with
  | Some _ =>
      url ← try_except parse_login_redirect
              (call (EvReverse "webindex") (co_reverse co "webindex"));
      mret (Some (HttpResponseRedirect url))
  | None => mret None
  end.

(** The context of the sign-in page, built in [handle_not_logged_in]. *)
Definition sign_in_context (authorization_url : string)
  : gmap string string :=
  let context : gmap string string :=
    <["client_name" := OAUTH_CLIENT_NAME cfg]>
      (<["authorization_url" := authorization_url]>
         (<["build_year" := build_year cfg]>
            (<["version" := omero_version cfg]> ∅))) in
  match LOGIN_LOGO cfg with
  | Some logo => <["LOGIN_LOGO" := logo]> context
  | None => context
  end.

(** Loading and rendering a template on a request context: the renderer
    reads the request and its session. *)
Definition render (template : string) (context : gmap string string)
           (rq : request) : M W string :=
  fun st =>
    match co_render co template context rq (session st) (world st) with
    | (r, w') =>
        (r, State w' (session st) (trace st ++ [EvRender template context]))
    end.

Definition handle_not_logged_in (rq : request) : M W response :=
  au ← call
         (EvAuthorizationUrl (OAUTH_CLIENT_ID cfg) (OAUTH_CLIENT_SCOPE cfg)
            (OAUTH_URL_AUTHORIZATION cfg))
         (co_authorization_url co (OAUTH_CLIENT_ID cfg)
            (OAUTH_CLIENT_SCOPE cfg) (OAUTH_URL_AUTHORIZATION cfg));
  let authorization_url := fst au in
  let state := snd au in
  _ ← session_set "oauth_state" (SText state);
  let context := sign_in_context authorization_url in
  rsp ← render "oauth/index.html" context rq;
  mret (HttpResponse rsp).

Definition index (rq : request) (kw : kwargs) : M W response :=
  r ← handle_logged_in rq kw;
  match r with
  | Some rsp => mret rsp
  | None => handle_not_logged_in rq
  end.

(** [getattr(oauth_settings, name)] for the names the module asks for. *)
Definition getattr_oauth_settings (name : string) : result string :=
  if String.eqb name "OAUTH_USER_NAME" then Ok (OAUTH_USER_NAME cfg)
  else if String.eqb name "OAUTH_USER_EMAIL" then Ok (OAUTH_USER_EMAIL cfg)
  else if String.eqb name "OAUTH_USER_FIRSTNAME"
       then Ok (OAUTH_USER_FIRSTNAME cfg)
  else if String.eqb name "OAUTH_USER_LASTNAME"
       then Ok (OAUTH_USER_LASTNAME cfg)
  else Raise (AttributeError name).

Definition _expand_template (name : string) (args : gmap string string)
  : result string :=
  match getattr_oauth_settings name with
  | Ok template => format (co_format_other_field co) template args
  | Raise e => Raise e
  end.

Definition get_session_for_user (omename : string) : M W string :=
  _ ← call EvGetSessionService (co_getSessionService co);
  call (EvCreateSession omename "User" (OAUTH_USER_TIMEOUT cfg * 1000))
    (co_createSessionWithTimeout co omename "User"
       (OAUTH_USER_TIMEOUT cfg * 1000)).

Definition create_user (omename email_ firstname lastname : string)
           (groupid : Z) : M W Z :=
  let e := Experimenter omename firstname lastname email_
             false true groupid [] None in
  call (EvCreateExperimenter e) (co_createExperimenter co e).

Definition get_or_create_group (groupname : option string) : M W Z :=
  groupname ←
    (if text_truthy groupname then mret (default "" groupname)
     else if OAUTH_GROUP_NAME_TEMPLATETIME cfg
          then call (EvNow (OAUTH_GROUP_NAME cfg))
                 (co_now_strftime co (OAUTH_GROUP_NAME cfg))
          else mret (OAUTH_GROUP_NAME cfg));
  g ← call (EvGetObject "ExperimenterGroup" "name" groupname)
        (co_getObject co "ExperimenterGroup" "name" groupname);
  match g with
  | Some gid => mret gid
  | None =>
      call (EvCreateGroup groupname (OAUTH_GROUP_PERMS cfg))
        (co_createGroup co groupname (OAUTH_GROUP_PERMS cfg))
  end.

Definition admin_connect : M W bool :=
  call (EvAdminConnect (OAUTH_HOST cfg) (OAUTH_PORT cfg)
          (OAUTH_ADMIN_USERNAME cfg) (OAUTH_ADMIN_PASSWORD cfg))
    (co_admin_connect co (OAUTH_HOST cfg) (OAUTH_PORT cfg)
       (OAUTH_ADMIN_USERNAME cfg) (OAUTH_ADMIN_PASSWORD cfg)).

Definition admin_close : M W unit :=
  call EvAdminClose (co_admin_close co).

Definition get_or_create_account_and_session
           (omename email_ firstname lastname : string)
  : M W (Z * string) :=
  connected ← admin_connect;
  if negb connected then
    raise (Exception_
             ["Failed to get account (unable to obtain admin connection)"])
  else
    try_finally
      (e ← call (EvGetObject "Experimenter" "omeName" omename)
             (co_getObject co "Experimenter" "omeName" omename);
       uid ← match e with
             | Some id => mret id
             | None =>
                 gid ← get_or_create_group None;
                 create_user omename email_ firstname lastname gid
             end;
       sess ← get_session_for_user omename;
       mret (uid, sess))
      admin_close.

(** [settings.UPGRADES_URL], an attribute that may be missing. *)
Definition getattr_upgrades_url : M W string :=
  match UPGRADES_URL cfg with
  | Some u => mret u
  | None => raise (AttributeError "UPGRADES_URL")
  end.

Definition login_with_session (rq : request) (sess : string)
  : M W (option response) :=
  let username := sess in
  let password_ := sess in
  let connector_ := Connector 1 (SECURE cfg) in
  compatible ←
    (if CHECK_VERSION cfg
     then call (EvCheckVersion connector_ USERAGENT)
            (co_check_version co connector_ USERAGENT)
     else mret true);
  if compatible : bool then
    let userip := co_get_client_ip co (META rq) in
    c ← call (EvCreateConnection connector_ USERAGENT username password_
                userip)
          (co_create_connection co connector_ USERAGENT username password_
             userip);
    match c with
    | Some cn =>
        try_finally
          (_ ← session_set "connector" (SConnector connector_);
           upgrades_url ←
             try_except_attribute getattr_upgrades_url
               (call (EvGetUpgradesUrl cn) (co_getUpgradesUrl co cn));
           _ ← call (EvUpgradeCheck upgrades_url)
                 (co_upgradeCheck co upgrades_url);
           handle_logged_in rq (Kwargs (Some cn) None))
          (call (EvConnClose cn) (co_conn_close co cn))
    | None =>
        raise (Exception_ ["Failed to login with session %s"; sess])
    end
  else raise (Exception_ ["Incompatible server"]).


Definition callback (rq : request) : M W (option response) :=
  state ← session_get "oauth_state";
  if negb (session_truthy state) then
    raise (PermissionDenied "OAuth state missing")
  else
    let state_v := default (SText "") state in
    let code := GET rq !! "code" in
    if negb (text_truthy code) then
      raise (PermissionDenied "OAuth code missing")
    else
      let code_v := default "" code in
      token ← call (EvFetchToken (OAUTH_CLIENT_ID cfg) state_v
                      (OAUTH_URL_TOKEN cfg) (OAUTH_CLIENT_SECRET cfg) code_v)
                (co_fetch_token co (OAUTH_CLIENT_ID cfg) state_v
                   (OAUTH_URL_TOKEN cfg) (OAUTH_CLIENT_SECRET cfg) code_v);
      userinfo ← call (EvUserinfo (OAUTH_CLIENT_ID cfg) state_v token
                         (OAUTH_URL_USERINFO cfg))
                   (co_userinfo co (OAUTH_CLIENT_ID cfg) state_v token
                      (OAUTH_URL_USERINFO cfg));
      omename ← lift (_expand_template "OAUTH_USER_NAME" userinfo);
      email_ ← lift (_expand_template "OAUTH_USER_EMAIL" userinfo);
      firstname ← lift (_expand_template "OAUTH_USER_FIRSTNAME" userinfo);
      lastname ← lift (_expand_template "OAUTH_USER_LASTNAME" userinfo);
      us ← get_or_create_account_and_session
             omename email_ firstname lastname;
      login_with_session rq (snd us).

Definition test_login (rq : request) (username : string)
  : M W (option response) :=
  connected ← admin_connect;
  if negb connected then raise AssertionError
  else
    sess ← get_session_for_user username;
    login_with_session rq sess.

End Views.

(** The userinfo response of the specification's example. *)
Definition alice_userinfo : gmap string string :=
  <["login" := "alice"]> (<["mail" := "a@example.org"]> ∅).

(** ** A small concrete world

    An image server with a table of accounts and a table of groups, an
    identity provider that accepts one authorization code, and a framework
    that knows no connection until one is created.  It serves to run the
    handlers on concrete requests. *)

Module Demo.

Record server : Type := Server {
  accounts : gmap string Z;
  groups : gmap string Z;
  next_id : Z;
  states_issued : nat;
  admin_open : bool
}.

Definition empty_server : server := Server ∅ ∅ 100 0 false.

Definition alice_server : server :=
  Server {[ "alice" := 7 ]} {[ "oauth" := 3 ]} 100 0 false.

Definition group_only_server : server :=
  Server ∅ {[ "oauth" := 3 ]} 100 0 false.

Definition state_text (n : nat) : string :=
  String (ascii_of_nat (97 + n)) "-state".

Definition world_of (userinfo : gmap string string)
  : collaborators server := {|
  co_get_connection := fun _ _ sess w => (Ok None, sess, w);
  co_parse_url := fun lr w => (Ok ("/" ++ lr), w);
  co_reverse := fun name w => (Ok ("/" ++ name ++ "/"), w);
  co_render := fun t ctx _ _ w =>
    (Ok ("<a href=" ++ default "" (ctx !! "authorization_url") ++ ">"), w);
  co_get_client_ip := fun meta => default "0.0.0.0" (meta !! "REMOTE_ADDR");
  co_check_version := fun _ _ w => (Ok true, w);
  co_create_connection := fun _ _ u p _ w =>
    (Ok (if String.eqb u p then Some 1%nat else None), w);
  co_getUpgradesUrl := fun _ w => (Ok "http://upgrade.example.org", w);
  co_upgradeCheck := fun _ w => (Ok tt, w);
  co_conn_close := fun _ w => (Ok tt, w);
  co_authorization_url := fun cid scope url w =>
    (Ok (url ++ "?client_id=" ++ cid, state_text (states_issued w)),
     Server (accounts w) (groups w) (next_id w) (S (states_issued w))
       (admin_open w));
  co_fetch_token := fun _ _ _ _ code w =>
    (if String.eqb code "good-code" then Ok "access-token"
     else Raise (CollaboratorError "invalid_grant"), w);
  co_userinfo := fun _ _ _ _ w => (Ok userinfo, w);
  co_format_other_field := fun body _ =>
    Raise (CollaboratorError "unsupported field");
  co_admin_connect := fun _ _ _ _ w =>
    (Ok true,
     Server (accounts w) (groups w) (next_id w) (states_issued w) true);
  co_getObject := fun kind _ value w =>
    (Ok (if String.eqb kind "Experimenter" then accounts w !! value
         else groups w !! value), w);
  co_createGroup := fun name _ w =>
    (Ok (next_id w),
     Server (accounts w) (<[name := next_id w]> (groups w)) (next_id w + 1)
       (states_issued w) (admin_open w));
  co_createExperimenter := fun e w =>
    (Ok (next_id w),
     Server (<[omeName e := next_id w]> (accounts w)) (groups w)
       (next_id w + 1) (states_issued w) (admin_open w));
  co_getSessionService := fun w => (Ok tt, w);
  co_createSessionWithTimeout := fun name _ _ w =>
    (match accounts w !! name with
     | Some _ => Ok ("session-of-" ++ name)
     | None => Raise (CollaboratorError "no such user")
     end, w);
  co_admin_close := fun w =>
    (Ok tt,
     Server (accounts w) (groups w) (next_id w) (states_issued w) false);
  co_now_strftime := fun fmt w => (Ok fmt, w)
|}.

Definition world : collaborators server := world_of alice_userinfo.

(** A provider whose userinfo response has no [mail] field. *)
Definition login_only_userinfo : gmap string string :=
  <["login" := "alice"]> ∅.

Definition config : settings := {|
  OAUTH_CLIENT_ID := "client";
  OAUTH_CLIENT_SECRET := "secret";
  OAUTH_CLIENT_SCOPE := "read";
  OAUTH_CLIENT_NAME := "Provider";
  OAUTH_URL_AUTHORIZATION := "https://idp.example.org/authorize";
  OAUTH_URL_TOKEN := "https://idp.example.org/token";
  OAUTH_URL_USERINFO := "https://idp.example.org/user";
  OAUTH_USER_NAME := "{login}";
  OAUTH_USER_EMAIL := "{mail}";
  OAUTH_USER_FIRSTNAME := "oauth";
  OAUTH_USER_LASTNAME := "{login}";
  OAUTH_HOST := "localhost";
  OAUTH_PORT := 4064;
  OAUTH_ADMIN_USERNAME := "root";
  OAUTH_ADMIN_PASSWORD := "omero";
  OAUTH_GROUP_NAME := "oauth";
  OAUTH_GROUP_NAME_TEMPLATETIME := false;
  OAUTH_GROUP_PERMS := "rw----";
  OAUTH_USER_TIMEOUT := 86400;
  LOGIN_REDIRECT := Some "webclient";
  LOGIN_LOGO := None;
  SECURE := true;
  CHECK_VERSION := true;
  UPGRADES_URL := None;
  omero_version := "5.4.10";
  build_year := "2019"
|}.

Definition start (w : server) (sess : gmap string session_value)
  : state server := State w sess [].

(** A callback whose query carries a state other than the one stored. *)
Definition forged_request : request :=
  Request (<["state" := "forged"]> (<["code" := "good-code"]> ∅)) ∅.

Definition stored_session : gmap string session_value :=
  {[ "oauth_state" := SText "a-state" ]}.

Definition plain_request : request := Request ∅ ∅.


End Demo.


(** ** Predicates on runs *)

(** Every event that a program adds to the trace satisfies [P]; the trace it
    was given is kept as a prefix. *)
Definition emits {W A} (P : event -> Prop) (c : M W A) : Prop :=
  forall st, exists delta : list event,
    trace (snd (c st)) = (trace st ++ delta)%list /\ Forall P delta.

(** A created user record as the module means it: no administrator, active,
    in no group but the default one, and without a local password. *)
Definition delegated_account (e : experimenter) : Prop :=
  isAdmin e = false /\ isActive e = true /\ otherGroupIds e = [] /\
  password e = None.

Definition creates_delegated_accounts (ev : event) : Prop :=
  match ev with
  | EvCreateExperimenter e => delegated_account e
  | _ => True
  end.

(** The session token stands for both credentials of a framework login. *)
Definition logs_in_with_token (sess : string) (ev : event) : Prop :=
  match ev with
  | EvCreateConnection _ agent username passwd _ =>
      agent = USERAGENT /\ username = sess /\ passwd = sess
  | _ => True
  end.

(** What account resolution does between opening and closing the
    administrative connection: calls on that connection, and the clock. *)
Definition inside_admin_connection (ev : event) : Prop :=
  (is_admin_call ev = true /\ is_admin_connect ev = false /\
   is_admin_close ev = false) \/ (exists fmt, ev = EvNow fmt).

(** Python values of the two results of account resolution: the account
    identifier is an integer, the session token is text. *)
Inductive pyvalue : Type :=
| PyInt (z : Z)
| PyStr (s : string).

(** ** Further predicates on runs and templates *)

(** A program leaves the session entry under [key] as it found it. *)
Definition keeps_session_key {W A} (key : string) (c : M W A) : Prop :=
  forall st, session (snd (c st)) !! key = session st !! key.

(** A session is asked for as [get_session_for_user] asks: for a principal
    of event type [User], with the configured timeout in milliseconds. *)
Definition issues_user_sessions (cfg : settings) (ev : event) : Prop :=
  match ev with
  | EvCreateSession _ event_type timeout =>
      event_type = "User" /\ timeout = OAUTH_USER_TIMEOUT cfg * 1000
  | _ => True
  end.

(** Nothing asked of the identity provider, and no account looked up or
    created. *)
Definition no_provider_no_account (ev : event) : Prop :=
  is_provider_call ev = false /\ is_account_lookup ev = false /\
  is_creation ev = false.

(** Nothing asked of the identity provider's token and userinfo endpoints
    nor of the administrative connection. *)
Definition no_provider_no_admin (ev : event) : Prop :=
  is_provider_call ev = false /\ is_admin_call ev = false /\
  is_framework_login ev = false.

(** A template without braces. *)
Fixpoint brace_free (s : string) : bool :=
  match s with
  | EmptyString => true
  | String c r =>
      (negb (Ascii.eqb c lbrace) && negb (Ascii.eqb c rbrace)
       && brace_free r)%bool
  end.

(** ** The concrete world with faults

    The concrete world again, where the gateway, the account lookup, the
    session service, the userinfo fetch, the version check and the
    connector answer as told. *)

Module Faults.

Record plan : Type := Plan {
  connects : result bool;
  lookup_error : option exn;
  session_service : result unit;
  userinfo_answer : result (gmap string string);
  compatible : result bool;
  connection : result (option conn)
}.

Definition none : plan :=
  Plan (Ok true) None (Ok tt) (Ok alice_userinfo) (Ok true) (Ok (Some 1%nat)).

Definition world (p : plan) : collaborators Demo.server := {|
  co_get_connection := co_get_connection Demo.world;
  co_parse_url := co_parse_url Demo.world;
  co_reverse := co_reverse Demo.world;
  co_render := co_render Demo.world;
  co_get_client_ip := co_get_client_ip Demo.world;
  co_check_version := fun _ _ w => (compatible p, w);
  co_create_connection := fun _ _ _ _ _ w => (connection p, w);
  co_getUpgradesUrl := co_getUpgradesUrl Demo.world;
  co_upgradeCheck := co_upgradeCheck Demo.world;
  co_conn_close := co_conn_close Demo.world;
  co_authorization_url := co_authorization_url Demo.world;
  co_fetch_token := co_fetch_token Demo.world;
  co_userinfo := fun _ _ _ _ w => (userinfo_answer p, w);
  co_format_other_field := co_format_other_field Demo.world;
  co_admin_connect := fun h pt u pw w =>
    match connects p with
    | Ok true => co_admin_connect Demo.world h pt u pw w
    | other => (other, w)
    end;
  co_getObject := fun kind attr value w =>
    match lookup_error p with
    | Some e => (Raise e, w)
    | None => co_getObject Demo.world kind attr value w
    end;
  co_createGroup := co_createGroup Demo.world;
  co_createExperimenter := co_createExperimenter Demo.world;
  co_getSessionService := fun w => (session_service p, w);
  co_createSessionWithTimeout := co_createSessionWithTimeout Demo.world;
  co_admin_close := co_admin_close Demo.world;
  co_now_strftime := co_now_strftime Demo.world
|}.

Definition refused : plan :=
  Plan (Ok false) None (Ok tt) (Ok alice_userinfo) (Ok true) (Ok (Some 1%nat)).

Definition lookup_down : plan :=
  Plan (Ok true) (Some (CollaboratorError "lookup failed")) (Ok tt)
    (Ok alice_userinfo) (Ok true) (Ok (Some 1%nat)).

Definition no_session_service : plan :=
  Plan (Ok true) None (Raise (CollaboratorError "no session service"))
    (Ok alice_userinfo) (Ok true) (Ok (Some 1%nat)).

Definition userinfo_down : plan :=
  Plan (Ok true) None (Ok tt) (Raise (CollaboratorError "userinfo failed"))
    (Ok true) (Ok (Some 1%nat)).

Definition incompatible : plan :=
  Plan (Ok true) None (Ok tt) (Ok alice_userinfo) (Ok false)
    (Ok (Some 1%nat)).

Definition no_connection : plan :=
  Plan (Ok true) None (Ok tt) (Ok alice_userinfo) (Ok true) (Ok None).

(** A callback that the provider is about to refuse. *)
Definition refused_request : request :=
  Request (<["code" := "stale-code"]> ∅) ∅.

End Faults.

(** * Properties *)

(** ** The formatter on plain templates *)

Section FormatFacts.

Variable other : string -> gmap string string -> result string.
Variable args : gmap string string.

Lemma render_plain_field body :
  plain_field body = true ->
  render_field other args body =
    match args !! body with
    | Some v => Ok v
    | None => Raise (KeyError body)
    end.
Proof. intros Hp. unfold render_field. now rewrite Hp. Qed.

Lemma prepend_ok s r out : r = Ok out -> prepend s r = Ok (s ++ out).
Proof. now intros ->. Qed.

Lemma prepend_raise s r e : r = Raise e -> prepend s r = Raise e.
Proof. now intros ->. Qed.

(** On a template whose fields are all plain, the formatter either finds
    every field and returns, or raises [KeyError] on a field that the
    mapping lacks. *)
Lemma format_scan_fields s :
  forall m fs,
    scan_fields m s = Some fs ->
    Forall (fun f => plain_field f = true) fs ->
    (Forall (fun f => is_Some (args !! f)) fs /\
     exists out, format_scan other args m s = Ok out) \/
    (exists k, k ∈ fs /\ args !! k = None /\
               format_scan other args m s = Raise (KeyError k)).
Proof.
  induction s as [|c r IH]; intros m fs Hs Hp.
  - destruct m; simpl in Hs; try discriminate.
    injection Hs as <-. left. split; [constructor | now exists ""].
  - assert (Hfield : forall depth body,
      (if Ascii.eqb c lbrace then
         scan_fields (InField (S depth) (snoc_char body c)) r
       else if Ascii.eqb c rbrace then
         match depth with
         | S (S d) => scan_fields (InField (S d) (snoc_char body c)) r
         | _ => cons body <$> scan_fields InText r
         end
       else scan_fields (InField depth (snoc_char body c)) r) = Some fs ->
      (Forall (fun f => is_Some (args !! f)) fs /\
       exists out,
         (if Ascii.eqb c lbrace then
            format_scan other args (InField (S depth) (snoc_char body c)) r
          else if Ascii.eqb c rbrace then
            match depth with
            | S (S d) =>
                format_scan other args (InField (S d) (snoc_char body c)) r
            | _ =>
                match render_field other args body with
                | Ok v => prepend v (format_scan other args InText r)
                | Raise e => Raise e
                end
            end
          else format_scan other args (InField depth (snoc_char body c)) r)
         = Ok out) \/
      (exists k, k ∈ fs /\ args !! k = None /\
         (if Ascii.eqb c lbrace then
            format_scan other args (InField (S depth) (snoc_char body c)) r
          else if Ascii.eqb c rbrace then
            match depth with
            | S (S d) =>
                format_scan other args (InField (S d) (snoc_char body c)) r
            | _ =>
                match render_field other args body with
                | Ok v => prepend v (format_scan other args InText r)
                | Raise e => Raise e
                end
            end
          else format_scan other args (InField depth (snoc_char body c)) r)
         = Raise (KeyError k))).
    { intros depth body Hf.
      destruct (Ascii.eqb c lbrace); [now apply IH|].
      destruct (Ascii.eqb c rbrace); [|now apply IH].
      assert (Hclose :
        cons body <$> scan_fields InText r = Some fs ->
        (Forall (fun f => is_Some (args !! f)) fs /\
         exists out,
           match render_field other args body with
           | Ok v => prepend v (format_scan other args InText r)
           | Raise e => Raise e
           end = Ok out) \/
        (exists k, k ∈ fs /\ args !! k = None /\
           match render_field other args body with
           | Ok v => prepend v (format_scan other args InText r)
           | Raise e => Raise e
           end = Raise (KeyError k))).
      { intros Hc.
        destruct (scan_fields InText r) as [fs'|] eqn:Hr; [|discriminate].
        simpl in Hc. injection Hc as <-.
        apply Forall_cons in Hp as [Hb Hp'].
        rewrite (render_plain_field body Hb).
        destruct (args !! body) as [v|] eqn:Hv.
        - destruct (IH InText fs' Hr Hp') as [[Hall [out Ho]]|[k [Hk [Hn Ho]]]].
          + left. split.
            * constructor; [now rewrite Hv | exact Hall].
            * exists (v ++ out). now apply prepend_ok.
          + right. exists k. split; [now apply list_elem_of_further|].
            split; [exact Hn | now apply prepend_raise].
        - right. exists body. split; [apply list_elem_of_here|]. now split. }
      destruct depth as [|[|d]]; [now apply Hclose | now apply Hclose |].
      now apply IH. }
    destruct m; simpl in Hs |- *.
    + destruct (Ascii.eqb c lbrace); [now apply IH|].
      destruct (Ascii.eqb c rbrace); [now apply IH|].
      destruct (IH InText fs Hs Hp) as [[Hall [out Ho]]|[k [Hk [Hn Ho]]]].
      * left. split; [exact Hall|]. rewrite Ho. simpl. eauto.
      * right. exists k. repeat split; try assumption. now apply prepend_raise.
    + destruct (Ascii.eqb c lbrace) eqn:Hl.
      * destruct (IH InText fs Hs Hp) as [[Hall [out Ho]]|[k [Hk [Hn Ho]]]].
        -- left. split; [exact Hall|]. rewrite Ho. simpl. eauto.
        -- right. exists k. repeat split; try assumption.
           now apply prepend_raise.
      * exact (Hfield 1%nat "" Hs).
    + destruct (Ascii.eqb c rbrace); [|discriminate].
      destruct (IH InText fs Hs Hp) as [[Hall [out Ho]]|[k [Hk [Hn Ho]]]].
      * left. split; [exact Hall|]. rewrite Ho. simpl. eauto.
      * right. exists k. repeat split; try assumption. now apply prepend_raise.
    + exact (Hfield depth body Hs).
Qed.

(** The two outcomes of formatting a plain template. *)
Lemma format_plain_template template fs :
  template_fields template = Some fs ->
  (Forall (fun f => is_Some (args !! f)) fs /\
   exists out, format other template args = Ok out) \/
  (exists k, k ∈ fs /\ args !! k = None /\
             format other template args = Raise (KeyError k)).
Proof.
  unfold template_fields, format. intros Ht.
  destruct (scan_fields InText template) as [fs'|] eqn:Hs; [|discriminate].
  destruct (forallb plain_field fs') eqn:Hp; [|discriminate].
  injection Ht as <-.
  apply (format_scan_fields template InText fs' Hs).
  apply Forall_forall. intros f Hf.
  rewrite forallb_forall in Hp. apply Hp. now apply list_elem_of_In.
Qed.


Lemma format_plain_ok_or_key_error template :
  is_Some (template_fields template) ->
  (exists out, format other template args = Ok out) \/
  (exists k, args !! k = None /\
             format other template args = Raise (KeyError k)).
Proof.
  intros [fs Ht].
  destruct (format_plain_template template fs Ht)
    as [[_ Ho]|(k & _ & Hk & Hr)]; [now left | right; now exists k].
Qed.

End FormatFacts.

(** ** Running the monad *)

Lemma count_events_app p (t1 t2 : list event) :
  count_events p (t1 ++ t2) = (count_events p t1 + count_events p t2)%nat.
Proof. unfold count_events. now rewrite List.filter_app, length_app. Qed.

Lemma count_events_none p (t : list event) :
  Forall (fun e => p e = false) t -> count_events p t = 0%nat.
Proof.
  unfold count_events. induction 1 as [|e t He _ IH]; simpl; [reflexivity|].
  now rewrite He.
Qed.

Section MonadFacts.

Context {W : Type}.

Lemma bind_ok {A B} (c : M W A) (k : A -> M W B) st a st' :
  c st = (Ok a, st') -> (c ≫= k) st = k a st'.
Proof. intros H. unfold mbind, M_bind, bind. now rewrite H. Qed.

Lemma bind_raise {A B} (c : M W A) (k : A -> M W B) st e st' :
  c st = (Raise e, st') -> (c ≫= k) st = (Raise e, st').
Proof. intros H. unfold mbind, M_bind, bind. now rewrite H. Qed.

Lemma call_run {A} ev (op : W -> result A * W) st r w' :
  op (world st) = (r, w') ->
  call ev op st = (r, State w' (session st) (trace st ++ [ev])).
Proof. intros H. unfold call. now rewrite H. Qed.


End MonadFacts.

(** ** Traces only grow

    [emits P c] is kept by every way the handlers are put together, so a
    property of the events of a handler follows from its text. *)

Section EmitsFacts.

Context {W : Type}.
Variable P : event -> Prop.

Lemma emits_silent {A} (c : M W A) :
  (forall st, trace (snd (c st)) = trace st) -> emits P c.
Proof.
  intros H st. exists []. rewrite H, app_nil_r. split; [reflexivity|constructor].
Qed.

Lemma emits_ret {A} (a : A) : emits P (mret a : M W A).
Proof. now apply emits_silent. Qed.

Lemma emits_raise {A} e : emits P (raise e : M W A).
Proof. now apply emits_silent. Qed.

Lemma emits_lift {A} (r : result A) : emits P (lift r : M W A).
Proof. now apply emits_silent. Qed.

Lemma emits_session_get key : emits P (session_get key : M W _).
Proof. now apply emits_silent. Qed.

Lemma emits_session_set key v : emits P (session_set key v : M W _).
Proof. now apply emits_silent. Qed.

Lemma emits_call {A} ev (op : W -> result A * W) :
  P ev -> emits P (call ev op).
Proof.
  intros Hev st. exists [ev]. unfold call.
  destruct (op (world st)) as [r w']. simpl. split; [reflexivity|].
  now repeat constructor.
Qed.

Lemma emits_bind {A B} (c : M W A) (k : A -> M W B) :
  emits P c -> (forall a, emits P (k a)) -> emits P (c ≫= k).
Proof.
  intros Hc Hk st. unfold mbind, M_bind, bind.
  destruct (Hc st) as (d1 & E1 & F1).
  destruct (c st) as [[a|e] st']; simpl in E1.
  - destruct (Hk a st') as (d2 & E2 & F2).
    exists (d1 ++ d2)%list. rewrite E2, E1, app_assoc. split; [reflexivity|].
    now apply Forall_app.
  - exists d1. now split.
Qed.

Lemma emits_try_except {A} (body handler : M W A) :
  emits P body -> emits P handler -> emits P (try_except body handler).
Proof.
  intros Hb Hh st. unfold try_except.
  destruct (Hb st) as (d1 & E1 & F1).
  destruct (body st) as [[a|e] st']; simpl in E1.
  - exists d1. now split.
  - destruct (Hh st') as (d2 & E2 & F2).
    exists (d1 ++ d2)%list. rewrite E2, E1, app_assoc. split; [reflexivity|].
    now apply Forall_app.
Qed.

Lemma emits_try_except_attribute {A} (body handler : M W A) :
  emits P body -> emits P handler ->
  emits P (try_except_attribute body handler).
Proof.
  intros Hb Hh st. unfold try_except_attribute.
  destruct (Hb st) as (d1 & E1 & F1).
  destruct (body st) as [[a|e] st']; simpl in E1.
  - exists d1. now split.
  - destruct (Hh st') as (d2 & E2 & F2).
    destruct e; try (exists d1; now split).
    exists (d1 ++ d2)%list. rewrite E2, E1, app_assoc. split; [reflexivity|].
    now apply Forall_app.
Qed.

Lemma emits_try_finally {A} (body : M W A) (cleanup : M W unit) :
  emits P body -> emits P cleanup -> emits P (try_finally body cleanup).
Proof.
  intros Hb Hc st. unfold try_finally.
  destruct (Hb st) as (d1 & E1 & F1).
  destruct (body st) as [r st']; simpl in E1.
  destruct (Hc st') as (d2 & E2 & F2).
  exists (d1 ++ d2)%list.
  destruct (cleanup st') as [[u|e] st'']; simpl in *;
    rewrite E2, E1, app_assoc; (split; [reflexivity|now apply Forall_app]).
Qed.

Lemma emits_get_connection (co : collaborators W) sid rq :
  P (EvGetConnection sid) -> emits P (get_connection co sid rq).
Proof.
  intros Hev st. exists [EvGetConnection sid]. unfold get_connection.
  destruct (co_get_connection co sid rq (session st) (world st))
    as [[r sess'] w'].
  simpl. split; [reflexivity|]. now repeat constructor.
Qed.

Lemma emits_render (co : collaborators W) template context rq :
  P (EvRender template context) -> emits P (render co template context rq).
Proof.
  intros Hev st. exists [EvRender template context]. unfold render.
  destruct (co_render co template context rq (session st) (world st))
    as [r w'].
  simpl. split; [reflexivity|]. now repeat constructor.
Qed.

Lemma emits_weaken {A} (Q : event -> Prop) (c : M W A) :
  (forall ev, Q ev -> P ev) -> emits Q c -> emits P c.
Proof.
  intros HQ Hc st. destruct (Hc st) as (d & E & F). exists d.
  split; [exact E|]. eapply Forall_impl; eauto.
Qed.

End EmitsFacts.

(** One step of a proof of [emits]: take the program apart along its
    combinators and branches. *)
Ltac emits_step :=
  lazymatch goal with
  | |- emits _ (_ ≫= _) => apply emits_bind; [|intros ?]
  | |- emits _ (mret _) => apply emits_ret
  | |- emits _ (raise _) => apply emits_raise
  | |- emits _ (lift _) => apply emits_lift
  | |- emits _ (session_get _) => apply emits_session_get
  | |- emits _ (session_set _ _) => apply emits_session_set
  | |- emits _ (call _ _) => apply emits_call; simpl
  | |- emits _ (try_except _ _) => apply emits_try_except
  | |- emits _ (try_except_attribute _ _) => apply emits_try_except_attribute
  | |- emits _ (try_finally _ _) => apply emits_try_finally
  | |- emits _ (get_connection _ _ _) => apply emits_get_connection; simpl
  | |- emits _ (render _ _ _ _) => apply emits_render; simpl
  | |- emits _ (if ?b then _ else _) => destruct b
  | |- emits _ (match ?x with _ => _ end) => destruct x
  end.

Ltac emits_auto := repeat (emits_step; auto).

(** ** The callback *)

Section CallbackFacts.

Context {W : Type}.
Variable co : collaborators W.
Variable cfg : settings.

(** C2.  A callback whose session holds no state, or whose query holds no
    code, ends with [PermissionDenied] and leaves the state as it found it:
    the world has not moved, the session is unchanged and no call was made
    (no token exchange, no userinfo fetch, nothing on the administrative
    connection). *)
Theorem callback_missing_state_or_code_denied (rq : request) (st : state W) :
  session_truthy (session st !! "oauth_state") = false \/
  text_truthy (GET rq !! "code") = false ->
  exists msg, callback co cfg rq st = (Raise (PermissionDenied msg), st).
Proof.
  intros H. unfold callback.
  unfold mbind at 1. unfold M_bind, bind, session_get.
  destruct (session_truthy (session st !! "oauth_state")) eqn:Hs; simpl.
  - destruct H as [H|H]; [discriminate|]. rewrite H. simpl.
    now exists "OAuth code missing".
  - now exists "OAuth state missing".
Qed.







(** X9.  The callback reads one query parameter, [code]: a [state]
    parameter in the query changes nothing of what it does. *)
Lemma callback_ignores_query_state query meta returned st :
  callback co cfg (Request (<["state" := returned]> query) meta) st =
  callback co cfg (Request query meta) st.
Proof.
  unfold callback. simpl GET.
  assert (E : <["state" := returned]> query !! "code" = query !! "code")
    by now apply lookup_insert_ne.
  rewrite E. reflexivity.
Qed.

End CallbackFacts.

(** Case analysis on the answers of the administrative gateway, one call
    after the other, in a goal where the program has been unfolded. *)
Ltac run_admin_calls co cfg :=
  repeat match goal with
         | |- context [co_admin_connect co ?a ?b ?c ?d ?w] =>
             destruct (co_admin_connect co a b c d w) as [[[|]|?] ?]; simpl
         | |- context [co_getObject co ?a ?b ?c ?w] =>
             destruct (co_getObject co a b c w) as [[[?|]|?] ?]; simpl
         | |- context [OAUTH_GROUP_NAME_TEMPLATETIME cfg] =>
             destruct (OAUTH_GROUP_NAME_TEMPLATETIME cfg); simpl
         | |- context [co_now_strftime co ?a ?w] =>
             destruct (co_now_strftime co a w) as [[?|?] ?]; simpl
         | |- context [co_createGroup co ?a ?b ?w] =>
             destruct (co_createGroup co a b w) as [[?|?] ?]; simpl
         | |- context [co_createExperimenter co ?a ?w] =>
             destruct (co_createExperimenter co a w) as [[?|?] ?]; simpl
         | |- context [co_getSessionService co ?w] =>
             destruct (co_getSessionService co w) as [[[]|?] ?]; simpl
         | |- context [co_createSessionWithTimeout co ?a ?b ?c ?w] =>
             destruct (co_createSessionWithTimeout co a b c w) as [[?|?] ?];
             simpl
         | |- context [co_admin_close co ?w] =>
             destruct (co_admin_close co w) as [[[]|?] ?]; simpl
         end.

(** ** Account resolution *)

Section AccountFacts.

Context {W : Type}.
Variable co : collaborators W.
Variable cfg : settings.

Lemma try_finally_close {A} (body : M W A) st :
  exists r st',
    try_finally body (admin_close co) st = (r, st') /\
    trace st' = (trace (snd (body st)) ++ [EvAdminClose])%list.
Proof.
  unfold try_finally, admin_close, call.
  destruct (body st) as [r st1]. simpl.
  destruct (co_admin_close co (world st1)) as [[u|e] w']; eauto.
Qed.

Lemma get_session_for_user_emits (P : event -> Prop) omename :
  P EvGetSessionService ->
  P (EvCreateSession omename "User" (OAUTH_USER_TIMEOUT cfg * 1000)) ->
  emits P (get_session_for_user co cfg omename).
Proof. intros H1 H2. unfold get_session_for_user. emits_auto. Qed.

Lemma account_body_emits omename email_ firstname lastname :
  emits inside_admin_connection
    (e ← call (EvGetObject "Experimenter" "omeName" omename)
           (co_getObject co "Experimenter" "omeName" omename);
     uid ← match e with
           | Some id => mret id
           | None =>
               gid ← get_or_create_group co cfg None;
               create_user co omename email_ firstname lastname gid
           end;
     sess ← get_session_for_user co cfg omename;
     mret (uid, sess)).
Proof.
  unfold get_or_create_group, create_user, get_session_for_user.
  emits_auto; unfold inside_admin_connection; simpl; eauto.
Qed.

(** X1.  Once the administrative connection is open, account resolution
    closes it as its last act, whatever happened in between: every call
    between the connect and the close is a call on that connection (or the
    clock), and none of them opens or closes it. *)
Lemma account_resolution_releases omename email_ firstname lastname st w1 :
  co_admin_connect co (OAUTH_HOST cfg) (OAUTH_PORT cfg)
    (OAUTH_ADMIN_USERNAME cfg) (OAUTH_ADMIN_PASSWORD cfg) (world st)
    = (Ok true, w1) ->
  exists mid,
    trace (snd (get_or_create_account_and_session co cfg
                  omename email_ firstname lastname st)) =
      (trace st ++
       [EvAdminConnect (OAUTH_HOST cfg) (OAUTH_PORT cfg)
          (OAUTH_ADMIN_USERNAME cfg) (OAUTH_ADMIN_PASSWORD cfg)] ++
       mid ++ [EvAdminClose])%list /\
    Forall inside_admin_connection mid.
Proof.
  intros Hc. unfold get_or_create_account_and_session.
  erewrite bind_ok; [|apply call_run; exact Hc]. cbn [negb].
  match goal with
  | |- context [try_finally ?b _ ?s] =>
      destruct (try_finally_close b s) as (r & st' & E & T);
      destruct (account_body_emits omename email_ firstname lastname s)
        as (mid & Em & Fm)
  end.
  rewrite E. simpl. rewrite T. exists mid. split; [|exact Fm].
  match type of Em with
  | _ = ?t => transitivity (t ++ [EvAdminClose])%list;
                [f_equal; exact Em|]
  end.
  simpl. now rewrite <- !app_assoc.
Qed.

(** No connection, nothing to release: when the gateway does not connect,
    account resolution raises at once. *)
Lemma account_resolution_not_connected omename email_ firstname lastname
      st r w1 :
  co_admin_connect co (OAUTH_HOST cfg) (OAUTH_PORT cfg)
    (OAUTH_ADMIN_USERNAME cfg) (OAUTH_ADMIN_PASSWORD cfg) (world st)
    = (r, w1) ->
  r <> Ok true ->
  exists e,
    get_or_create_account_and_session co cfg
      omename email_ firstname lastname st =
    (Raise e,
     State w1 (session st)
       (trace st ++
        [EvAdminConnect (OAUTH_HOST cfg) (OAUTH_PORT cfg)
           (OAUTH_ADMIN_USERNAME cfg) (OAUTH_ADMIN_PASSWORD cfg)])).
Proof.
  intros Hc Hr. unfold get_or_create_account_and_session.
  destruct r as [[|]|e]; [congruence| |].
  - erewrite bind_ok; [|apply call_run; exact Hc]. simpl. eauto.
  - erewrite bind_raise; [|apply call_run; exact Hc]. eauto.
Qed.

(** C4.  When the login name resolves to an account, account resolution
    creates nothing: after the lookup it asks for the session service,
    issues a session for that login name and closes the connection.  The
    account identifier it returns is the one of the account found. *)
Theorem existing_account_no_creation
        omename email_ firstname lastname st w1 uid w2 :
  co_admin_connect co (OAUTH_HOST cfg) (OAUTH_PORT cfg)
    (OAUTH_ADMIN_USERNAME cfg) (OAUTH_ADMIN_PASSWORD cfg) (world st)
    = (Ok true, w1) ->
  co_getObject co "Experimenter" "omeName" omename w1
    = (Ok (Some uid), w2) ->
  exists r st' tail,
    get_or_create_account_and_session co cfg
      omename email_ firstname lastname st = (r, st') /\
    trace st' =
      (trace st ++
       [EvAdminConnect (OAUTH_HOST cfg) (OAUTH_PORT cfg)
          (OAUTH_ADMIN_USERNAME cfg) (OAUTH_ADMIN_PASSWORD cfg);
        EvGetObject "Experimenter" "omeName" omename] ++ tail)%list /\
    (tail = [EvGetSessionService; EvAdminClose] \/
     tail = [EvGetSessionService;
             EvCreateSession omename "User" (OAUTH_USER_TIMEOUT cfg * 1000);
             EvAdminClose]) /\
    count_events is_creation (trace st') =
      count_events is_creation (trace st) /\
    (forall uid' tok,
        r = Ok (uid', tok) ->
        uid' = uid /\
        tail = [EvGetSessionService;
                EvCreateSession omename "User"
                  (OAUTH_USER_TIMEOUT cfg * 1000);
                EvAdminClose]).
Proof.
  intros Hc Hl. unfold get_or_create_account_and_session.
  erewrite bind_ok; [|apply call_run; exact Hc]. cbn [negb].
  unfold try_finally.
  erewrite bind_ok; [|apply call_run; exact Hl].
  unfold get_session_for_user, admin_close.
  unfold mbind, M_bind, bind, mret, M_ret, ret, call. simpl.
  destruct (co_getSessionService co w2) as [[[]|e] w3]; simpl.
  - destruct (co_createSessionWithTimeout co omename "User"
                (OAUTH_USER_TIMEOUT cfg * 1000) w3) as [[tok|e] w4]; simpl;
      destruct (co_admin_close co w4) as [[[]|e'] w5]; simpl;
      eexists _, _, _; (split; [reflexivity|]); simpl;
      (split; [rewrite <- !app_assoc; reflexivity|]);
      (split; [right; reflexivity|]);
      (split; [rewrite !count_events_app; unfold count_events; simpl; lia|]);
      intros uid' tok' E; inversion E; subst; now split.
  - destruct (co_admin_close co w3) as [[[]|e'] w5]; simpl;
      eexists _, _, _; (split; [reflexivity|]); simpl;
      (split; [rewrite <- !app_assoc; reflexivity|]);
      (split; [left; reflexivity|]);
      (split; [rewrite !count_events_app; unfold count_events; simpl; lia|]);
      intros uid' tok' E; inversion E.
Qed.

(** C6.  Every account that account resolution creates, on its own or
    within a callback, is a delegated one: no administrator, active, no
    group besides the default one, no local password.  [create_user]
    makes one creation call, with such a record. *)
Theorem created_accounts_are_delegated omename email_ firstname lastname :
  emits creates_delegated_accounts
    (get_or_create_account_and_session co cfg
       omename email_ firstname lastname) /\
  (forall rq, emits creates_delegated_accounts (callback co cfg rq)) /\
  (forall gid st, exists e,
      trace (snd (create_user co omename email_ firstname lastname gid st)) =
        (trace st ++ [EvCreateExperimenter e])%list /\
      delegated_account e /\
      omeName e = omename /\ email e = email_ /\
      firstName e = firstname /\ lastName e = lastname /\
      defaultGroupId e = gid).
Proof.
  assert (Hres : forall o e f l,
    emits creates_delegated_accounts
      (get_or_create_account_and_session co cfg o e f l)).
  { intros o e f l.
    unfold get_or_create_account_and_session, admin_connect, admin_close,
      get_or_create_group, create_user, get_session_for_user.
    emits_auto; repeat split. }
  assert (Hlog : forall rq s kw,
    emits creates_delegated_accounts (handle_logged_in co cfg rq kw) /\
    emits creates_delegated_accounts (login_with_session co cfg rq s)).
  { intros rq s kw.
    assert (Hh : forall kw',
      emits creates_delegated_accounts (handle_logged_in co cfg rq kw')).
    { intros kw'. unfold handle_logged_in, parse_login_redirect.
      emits_auto. }
    split; [apply Hh|].
    unfold login_with_session, getattr_upgrades_url. emits_auto. }
  split; [apply Hres|]. split.
  - intros rq. unfold callback. emits_auto. apply (Hlog rq _ (Kwargs None None)).
  - intros gid st. unfold create_user, call.
    destruct (co_createExperimenter co _ (world st)) as [r w']. simpl.
    eexists. split; [reflexivity|]. repeat split.
Qed.

(** The run of account resolution for a login name without an account,
    when every call to the server succeeds: the events, in order. *)
Lemma account_creation_run omename email_ firstname lastname
      st w1 w2 gname w2' g w3 gid w4 uid w5 w6 tok w7 w8 :
  co_admin_connect co (OAUTH_HOST cfg) (OAUTH_PORT cfg)
    (OAUTH_ADMIN_USERNAME cfg) (OAUTH_ADMIN_PASSWORD cfg) (world st)
    = (Ok true, w1) ->
  co_getObject co "Experimenter" "omeName" omename w1 = (Ok None, w2) ->
  (if OAUTH_GROUP_NAME_TEMPLATETIME cfg
   then co_now_strftime co (OAUTH_GROUP_NAME cfg) w2
   else (Ok (OAUTH_GROUP_NAME cfg), w2)) = (Ok gname, w2') ->
  co_getObject co "ExperimenterGroup" "name" gname w2' = (Ok g, w3) ->
  match g with
  | Some found => gid = found /\ w4 = w3
  | None =>
      co_createGroup co gname (OAUTH_GROUP_PERMS cfg) w3 = (Ok gid, w4)
  end ->
  co_createExperimenter co
    (Experimenter omename firstname lastname email_ false true gid [] None)
    w4 = (Ok uid, w5) ->
  co_getSessionService co w5 = (Ok tt, w6) ->
  co_createSessionWithTimeout co omename "User"
    (OAUTH_USER_TIMEOUT cfg * 1000) w6 = (Ok tok, w7) ->
  co_admin_close co w7 = (Ok tt, w8) ->
  get_or_create_account_and_session co cfg
    omename email_ firstname lastname st =
  (Ok (uid, tok),
   State w8 (session st)
     (trace st ++
      [EvAdminConnect (OAUTH_HOST cfg) (OAUTH_PORT cfg)
         (OAUTH_ADMIN_USERNAME cfg) (OAUTH_ADMIN_PASSWORD cfg);
       EvGetObject "Experimenter" "omeName" omename] ++
      (if OAUTH_GROUP_NAME_TEMPLATETIME cfg
       then [EvNow (OAUTH_GROUP_NAME cfg)] else []) ++
      [EvGetObject "ExperimenterGroup" "name" gname] ++
      (match g with
       | Some _ => []
       | None => [EvCreateGroup gname (OAUTH_GROUP_PERMS cfg)]
       end) ++
      [EvCreateExperimenter
         (Experimenter omename firstname lastname email_
            false true gid [] None);
       EvGetSessionService;
       EvCreateSession omename "User" (OAUTH_USER_TIMEOUT cfg * 1000);
       EvAdminClose])).
Proof.
  intros Hc Hl Hn Hg Hgid Hu Hs Ht Hx.
  unfold get_or_create_account_and_session.
  erewrite bind_ok; [|apply call_run; exact Hc]. cbn [negb].
  unfold try_finally.
  erewrite bind_ok; [|apply call_run; exact Hl].
  unfold get_or_create_group, create_user, get_session_for_user,
    admin_close.
  unfold mbind, M_bind, bind, mret, M_ret, ret, call. simpl.
  destruct (OAUTH_GROUP_NAME_TEMPLATETIME cfg); simpl.
  - rewrite Hn. simpl. rewrite Hg. simpl.
    destruct g as [found|]; simpl.
    + destruct Hgid as [-> ->]. rewrite Hu. simpl. rewrite Hs. simpl.
      rewrite Ht. simpl. rewrite Hx. simpl.
      now rewrite <- !app_assoc.
    + rewrite Hgid. simpl. rewrite Hu. simpl. rewrite Hs. simpl.
      rewrite Ht. simpl. rewrite Hx. simpl.
      now rewrite <- !app_assoc.
  - injection Hn as <- <-. rewrite Hg. simpl.
    destruct g as [found|]; simpl.
    + destruct Hgid as [-> ->]. rewrite Hu. simpl. rewrite Hs. simpl.
      rewrite Ht. simpl. rewrite Hx. simpl.
      now rewrite <- !app_assoc.
    + rewrite Hgid. simpl. rewrite Hu. simpl. rewrite Hs. simpl.
      rewrite Ht. simpl. rewrite Hx. simpl.
      now rewrite <- !app_assoc.
Qed.

(** X2.  In any run at all, account resolution creates at most one account
    and at most one group, and looks up at most one account. *)
Lemma account_resolution_creates_at_most_once
      omename email_ firstname lastname st :
  exists delta,
    trace (snd (get_or_create_account_and_session co cfg
                  omename email_ firstname lastname st)) =
      (trace st ++ delta)%list /\
    (count_events is_create_user delta <= 1)%nat /\
    (count_events is_create_group delta <= 1)%nat /\
    (count_events is_account_lookup delta <= 1)%nat.
Proof.
  unfold get_or_create_account_and_session, admin_connect, admin_close,
    get_or_create_group, create_user, get_session_for_user, try_finally.
  unfold mbind, M_bind, bind, mret, M_ret, ret, raise, call.
  simpl.
  run_admin_calls co cfg;
    eexists; (split; [rewrite <- ?app_assoc; simpl; reflexivity|]);
    unfold count_events; simpl; lia.
Qed.

(** C5.  With the templates [{login}] and [{mail}] and the userinfo
    response of the example, the login name is [alice] and the address is
    [a@example.org].  When no account has that name and the server answers
    every call, account resolution looks up [omeName = alice] right after
    connecting, creates one account, creates a group only if the
    configured one is not found, issues one session for [alice], and
    returns the identifier of the new account with the session token: an
    integer and a text, two different values. *)
Theorem alice_account_resolution
        firstname lastname st w1 w2 gname w2' g w3 gid w4 uid w5 w6 tok w7 w8 :
  OAUTH_USER_NAME cfg = "{login}" ->
  OAUTH_USER_EMAIL cfg = "{mail}" ->
  co_admin_connect co (OAUTH_HOST cfg) (OAUTH_PORT cfg)
    (OAUTH_ADMIN_USERNAME cfg) (OAUTH_ADMIN_PASSWORD cfg) (world st)
    = (Ok true, w1) ->
  co_getObject co "Experimenter" "omeName" "alice" w1 = (Ok None, w2) ->
  (if OAUTH_GROUP_NAME_TEMPLATETIME cfg
   then co_now_strftime co (OAUTH_GROUP_NAME cfg) w2
   else (Ok (OAUTH_GROUP_NAME cfg), w2)) = (Ok gname, w2') ->
  co_getObject co "ExperimenterGroup" "name" gname w2' = (Ok g, w3) ->
  match g with
  | Some found => gid = found /\ w4 = w3
  | None =>
      co_createGroup co gname (OAUTH_GROUP_PERMS cfg) w3 = (Ok gid, w4)
  end ->
  co_createExperimenter co
    (Experimenter "alice" firstname lastname "a@example.org"
       false true gid [] None)
    w4 = (Ok uid, w5) ->
  co_getSessionService co w5 = (Ok tt, w6) ->
  co_createSessionWithTimeout co "alice" "User"
    (OAUTH_USER_TIMEOUT cfg * 1000) w6 = (Ok tok, w7) ->
  co_admin_close co w7 = (Ok tt, w8) ->
  _expand_template co cfg "OAUTH_USER_NAME" alice_userinfo = Ok "alice" /\
  _expand_template co cfg "OAUTH_USER_EMAIL" alice_userinfo
    = Ok "a@example.org" /\
  exists delta st',
    get_or_create_account_and_session co cfg
      "alice" "a@example.org" firstname lastname st = (Ok (uid, tok), st') /\
    trace st' = (trace st ++ delta)%list /\
    delta !! 1%nat = Some (EvGetObject "Experimenter" "omeName" "alice") /\
    count_events is_account_lookup delta = 1%nat /\
    count_events is_create_user delta = 1%nat /\
    count_events is_create_group delta =
      match g with Some _ => 0%nat | None => 1%nat end /\
    (count_events is_create_group delta <= 1)%nat /\
    count_events is_session_issuance delta = 1%nat /\
    In (EvCreateSession "alice" "User" (OAUTH_USER_TIMEOUT cfg * 1000))
       delta /\
    PyStr tok <> PyInt uid.
Proof.
  intros Hn He Hc Hl Hg Hgl Hgid Hu Hs Ht Hx.
  split; [|split].
  - unfold _expand_template, getattr_oauth_settings. simpl.
    rewrite Hn. reflexivity.
  - unfold _expand_template, getattr_oauth_settings. simpl.
    rewrite He. reflexivity.
  - eexists _, _. split.
    { eapply account_creation_run; eassumption. }
    simpl. split; [reflexivity|].
    destruct (OAUTH_GROUP_NAME_TEMPLATETIME cfg), g;
      unfold count_events; simpl; repeat split; auto; try lia;
      try discriminate; tauto.
Qed.

End AccountFacts.

(** ** The index page and the framework login *)

Section LoginFacts.

Context {W : Type}.
Variable co : collaborators W.
Variable cfg : settings.

Lemma handle_logged_in_emits (P : event -> Prop) rq kw :
  (forall sid, P (EvGetConnection sid)) ->
  (forall lr, P (EvParseUrl lr)) ->
  P (EvReverse "webindex") ->
  emits P (handle_logged_in co cfg rq kw).
Proof.
  intros H1 H2 H3. unfold handle_logged_in, parse_login_redirect.
  emits_auto.
Qed.

Lemma login_with_session_emits (P : event -> Prop) rq sess :
  (forall ev, is_admin_call ev = false -> is_provider_call ev = false ->
              is_framework_login ev = false -> is_render ev = false ->
              P ev) ->
  (forall c ip, P (EvCreateConnection c USERAGENT sess sess ip)) ->
  emits P (login_with_session co cfg rq sess).
Proof.
  intros H1 H2.
  unfold login_with_session, getattr_upgrades_url.
  emits_auto; try (apply H1; reflexivity).
  apply handle_logged_in_emits; intros; apply H1; reflexivity.
Qed.

Lemma bind_call_trace {A B} ev (op : W -> result A * W) (k : A -> M W B) st :
  (forall a, emits (fun _ => True) (k a)) ->
  exists delta,
    trace (snd ((call ev op ≫= k) st)) = (trace st ++ ev :: delta)%list.
Proof.
  intros Hk. unfold mbind, M_bind, bind, call.
  destruct (op (world st)) as [[a|e] w'].
  - destruct (Hk a (State w' (session st) (trace st ++ [ev])))
      as (d & E & _).
    exists d. rewrite E. simpl. now rewrite <- app_assoc.
  - exists []. reflexivity.
Qed.

(** C9.  A framework login hands the session token to the connector as the
    user name and as the password: every [create_connection] call that
    [login_with_session] makes has the token in both places, and when the
    server is compatible the call is made. *)
Theorem login_with_session_token_as_credentials rq sess :
  emits (logs_in_with_token sess) (login_with_session co cfg rq sess) /\
  (forall st w1,
      (if CHECK_VERSION cfg
       then co_check_version co (Connector 1 (SECURE cfg)) USERAGENT
              (world st)
       else (Ok true, world st)) = (Ok true, w1) ->
      exists delta,
        trace (snd (login_with_session co cfg rq sess st)) =
          (trace st ++
           (if CHECK_VERSION cfg
            then [EvCheckVersion (Connector 1 (SECURE cfg)) USERAGENT]
            else []) ++
           EvCreateConnection (Connector 1 (SECURE cfg)) USERAGENT
             sess sess (co_get_client_ip co (META rq)) :: delta)%list).
Proof.
  split.
  - apply login_with_session_emits.
    + intros ev _ _ Hf _. now destruct ev.
    + intros c ip. now repeat split.
  - intros st w1 Hv. unfold login_with_session.
    assert (Hk : forall c : option conn,
      emits (fun _ => True)
        (match c with
         | Some cn =>
             try_finally
               (_ ← session_set "connector"
                      (SConnector (Connector 1 (SECURE cfg)));
                upgrades_url ←
                  try_except_attribute (getattr_upgrades_url cfg)
                    (call (EvGetUpgradesUrl cn) (co_getUpgradesUrl co cn));
                _ ← call (EvUpgradeCheck upgrades_url)
                      (co_upgradeCheck co upgrades_url);
                handle_logged_in co cfg rq (Kwargs (Some cn) None))
               (call (EvConnClose cn) (co_conn_close co cn))
         | None =>
             raise (Exception_ ["Failed to login with session %s"; sess])
         end : M W (option response))).
    { intros c. unfold getattr_upgrades_url. emits_auto.
      now apply handle_logged_in_emits. }
    destruct (CHECK_VERSION cfg).
    + erewrite bind_ok; [|apply call_run; exact Hv]. cbv beta iota zeta.
      match goal with
      | |- context [(call ?ev ?op ≫= ?k) ?s] =>
          destruct (bind_call_trace ev op k s Hk) as (d & E)
      end.
      exists d. rewrite E. simpl. now rewrite <- app_assoc.
    + injection Hv as <-.
      erewrite bind_ok; [|reflexivity]. cbv beta iota zeta.
      match goal with
      | |- context [(call ?ev ?op ≫= ?k) ?s] =>
          destruct (bind_call_trace ev op k s Hk) as (d & E)
      end.
      exists d. exact E.
Qed.

(** With a connection in hand, [handle_logged_in] answers with a redirect
    to the parsed landing URL, or to the reversed [webindex] when the
    landing URL is missing or does not parse. *)
Lemma landing_redirect (st1 : state W) :
  (forall w, exists u w', co_reverse co "webindex" w = (Ok u, w')) ->
  exists url st',
    (url ← try_except (parse_login_redirect co cfg)
             (call (EvReverse "webindex") (co_reverse co "webindex"));
     mret (Some (HttpResponseRedirect url))) st1 =
      (Ok (Some (HttpResponseRedirect url)), st') /\
    ((exists lr w2, LOGIN_REDIRECT cfg = Some lr /\
                    co_parse_url co lr (world st1) = (Ok url, w2)) \/
     (exists w2 w3,
         ((LOGIN_REDIRECT cfg = None /\ w2 = world st1) \/
          (exists lr e, LOGIN_REDIRECT cfg = Some lr /\
                        co_parse_url co lr (world st1) = (Raise e, w2))) /\
         co_reverse co "webindex" w2 = (Ok url, w3))) /\
    session st' = session st1 /\
    exists delta,
      trace st' = (trace st1 ++ delta)%list /\
      Forall (fun ev => is_render ev = false) delta.
Proof.
  intros Hrev.
  unfold parse_login_redirect, try_except, call, raise.
  unfold mbind, M_bind, bind, mret, M_ret, ret.
  destruct (LOGIN_REDIRECT cfg) as [lr|]; simpl.
  - destruct (co_parse_url co lr (world st1)) as [[u|e] w2] eqn:Ep; simpl.
    + exists u. eexists. split; [reflexivity|]. split; [left; eauto|].
      split; [reflexivity|]. eexists. split; [reflexivity|].
      now repeat constructor.
    + destruct (Hrev w2) as (u & w3 & Er). rewrite Er. simpl.
      exists u. eexists. split; [reflexivity|]. split.
      { right. exists w2, w3. split; [right; eauto|exact Er]. }
      split; [reflexivity|]. eexists. split.
      { simpl. rewrite <- app_assoc. reflexivity. }
      now repeat constructor.
  - destruct (Hrev (world st1)) as (u & w3 & Er). rewrite Er. simpl.
    exists u. eexists. split; [reflexivity|]. split.
    { right. exists (world st1), w3. split; [left; eauto|exact Er]. }
    split; [reflexivity|]. eexists. split; [reflexivity|].
    now repeat constructor.
Qed.

(** C7.  A request that carries a valid connection, passed in by the
    caller or found by the framework, gets a redirect from [index]: to the
    landing URL that [parse_url] returns, or to the reversed [webindex]
    when the setting is missing or does not parse ([webindex] being a URL
    name that the framework resolves).  The sign-in page is not rendered
    and the session is as connection resolution left it: no CSRF state is
    stored. *)
Theorem index_redirects_when_logged_in rq kw st c sess1 w1 :
  (forall w, exists u w', co_reverse co "webindex" w = (Ok u, w')) ->
  (kw_conn kw = Some c /\ sess1 = session st /\ w1 = world st) \/
  (kw_conn kw = None /\
   co_get_connection co (kw_server_id kw) rq (session st) (world st)
     = (Ok (Some c), sess1, w1)) ->
  exists url st',
    index co cfg rq kw st = (Ok (HttpResponseRedirect url), st') /\
    ((exists lr w2, LOGIN_REDIRECT cfg = Some lr /\
                    co_parse_url co lr w1 = (Ok url, w2)) \/
     (exists w2 w3,
         ((LOGIN_REDIRECT cfg = None /\ w2 = w1) \/
          (exists lr e, LOGIN_REDIRECT cfg = Some lr /\
                        co_parse_url co lr w1 = (Raise e, w2))) /\
         co_reverse co "webindex" w2 = (Ok url, w3))) /\
    session st' = sess1 /\
    count_events is_render (trace st') = count_events is_render (trace st).
Proof.
  intros Hrev H.
  assert (Hh : exists url st',
    handle_logged_in co cfg rq kw st =
      (Ok (Some (HttpResponseRedirect url)), st') /\
    ((exists lr w2, LOGIN_REDIRECT cfg = Some lr /\
                    co_parse_url co lr w1 = (Ok url, w2)) \/
     (exists w2 w3,
         ((LOGIN_REDIRECT cfg = None /\ w2 = w1) \/
          (exists lr e, LOGIN_REDIRECT cfg = Some lr /\
                        co_parse_url co lr w1 = (Raise e, w2))) /\
         co_reverse co "webindex" w2 = (Ok url, w3))) /\
    session st' = sess1 /\
    count_events is_render (trace st') = count_events is_render (trace st)).
  { unfold handle_logged_in.
    destruct H as [(Hk & -> & ->)|(Hk & Hg)]; rewrite Hk.
    - rewrite (bind_ok _ _ st (Some c) st) by reflexivity.
      cbv beta iota.
      destruct (landing_redirect st Hrev)
        as (url & st' & E & Hu & Hs & d & T & F).
      exists url, st'. split; [exact E|]. split; [exact Hu|].
      split; [exact Hs|].
      rewrite T, count_events_app, (count_events_none _ d F). lia.
    - set (st1 := State w1 sess1
                    (trace st ++ [EvGetConnection (kw_server_id kw)])).
      assert (Eg : try_except (get_connection co (kw_server_id kw) rq)
                     (mret None) st = (Ok (Some c), st1)).
      { unfold try_except, get_connection. now rewrite Hg. }
      rewrite (bind_ok _ _ st (Some c) st1) by exact Eg.
      cbv beta iota.
      destruct (landing_redirect st1 Hrev)
        as (url & st' & E & Hu & Hs & d & T & F).
      exists url, st'. split; [exact E|]. split; [exact Hu|].
      split; [exact Hs|].
      rewrite T, count_events_app, (count_events_none _ d F).
      unfold st1. simpl. rewrite count_events_app. unfold count_events at 2.
      simpl. lia. }
  destruct Hh as (url & st' & E & Hu & Hs & Hc).
  exists url, st'. unfold index.
  erewrite bind_ok; [|exact E]. cbv beta iota.
  split; [reflexivity|]. now repeat split.
Qed.

(** C8.  A request without a valid connection (the framework finds none,
    or fails looking for one, which is swallowed) gets the sign-in page
    from [index], provided the library builds the authorization URL and the
    page renders.  The CSRF state stored in the session is the one that the
    OAuth2 library generated for the authorization URL of this very page;
    it is not empty as long as the library generates non-empty states. *)
Theorem index_renders_sign_in_when_not_logged_in
        rq kw st r sess1 w1 auth_url state w2 body w3 :
  kw_conn kw = None ->
  co_get_connection co (kw_server_id kw) rq (session st) (world st)
    = (r, sess1, w1) ->
  r = Ok None \/ (exists e, r = Raise e) ->
  co_authorization_url co (OAUTH_CLIENT_ID cfg) (OAUTH_CLIENT_SCOPE cfg)
    (OAUTH_URL_AUTHORIZATION cfg) w1 = (Ok (auth_url, state), w2) ->
  state <> "" ->
  co_render co "oauth/index.html" (sign_in_context cfg auth_url) rq
    (<["oauth_state" := SText state]> sess1) w2 = (Ok body, w3) ->
  exists st',
    index co cfg rq kw st = (Ok (HttpResponse body), st') /\
    world st' = w3 /\
    session st' = <["oauth_state" := SText state]> sess1 /\
    session st' !! "oauth_state" = Some (SText state) /\
    session_truthy (session st' !! "oauth_state") = true /\
    sign_in_context cfg auth_url !! "authorization_url" = Some auth_url /\
    trace st' =
      (trace st ++
       [EvGetConnection (kw_server_id kw);
        EvAuthorizationUrl (OAUTH_CLIENT_ID cfg) (OAUTH_CLIENT_SCOPE cfg)
          (OAUTH_URL_AUTHORIZATION cfg);
        EvRender "oauth/index.html" (sign_in_context cfg auth_url)])%list.
Proof.
  intros Hk Hg Hr Ha Hne Hp.
  set (st1 := State w1 sess1 (trace st ++ [EvGetConnection (kw_server_id kw)])).
  assert (Eh : handle_logged_in co cfg rq kw st = (Ok None, st1)).
  { unfold handle_logged_in. rewrite Hk.
    assert (Eg : try_except (get_connection co (kw_server_id kw) rq)
                   (mret None) st = (Ok None, st1)).
    { unfold try_except, get_connection. rewrite Hg.
      destruct Hr as [->|[e ->]]; reflexivity. }
    now rewrite (bind_ok _ _ st None st1) by exact Eg. }
  unfold index. rewrite (bind_ok _ _ st None st1) by exact Eh.
  cbv beta iota.
  unfold handle_not_logged_in.
  erewrite bind_ok; [|apply call_run; exact Ha]. cbv beta iota zeta.
  unfold session_set, render.
  unfold mbind, M_bind, bind, mret, M_ret, ret. simpl.
  rewrite Hp. simpl. eexists. split; [reflexivity|]. simpl.
  split; [reflexivity|]. split; [reflexivity|].
  split; [now rewrite lookup_insert_eq|].
  split.
  { rewrite lookup_insert_eq. simpl.
    destruct (String.eqb state "") eqn:E; [|reflexivity].
    apply String.eqb_eq in E. contradiction. }
  split.
  { unfold sign_in_context. destruct (LOGIN_LOGO cfg); now simplify_map_eq. }
  now rewrite <- !app_assoc.
Qed.

(** The test login opens the administrative connection and nowhere closes
    it: no run of [test_login] has a close event. *)
Lemma test_login_never_releases rq username :
  emits (fun ev => is_admin_close ev = false)
    (test_login co cfg rq username).
Proof.
  unfold test_login, admin_connect, get_session_for_user.
  emits_auto.
  apply login_with_session_emits.
  - intros ev H _ _ _. now destruct ev.
  - reflexivity.
Qed.

End LoginFacts.

(** ** The handlers on the concrete world *)

(** C1.  The callback never looks at the state the provider hands back.  A
    request whose query carries [state=forged] while the session holds
    [a-state] is not rejected: the code is exchanged for a token, the
    account is looked up, a session is issued and the browser is logged
    in. *)
Theorem callback_accepts_forged_state :
  let run := callback Demo.world Demo.config Demo.forged_request
               (Demo.start Demo.empty_server Demo.stored_session) in
  GET Demo.forged_request !! "state" = Some "forged" /\
  Demo.stored_session !! "oauth_state" = Some (SText "a-state") /\
  fst run = Ok (Some (HttpResponseRedirect "/webclient")) /\
  count_events is_token_exchange (trace (snd run)) = 1%nat /\
  count_events is_account_lookup (trace (snd run)) = 1%nat /\
  count_events is_session_issuance (trace (snd run)) = 1%nat /\
  count_events is_framework_login (trace (snd run)) = 1%nat.
Proof. vm_compute. repeat split; reflexivity. Qed.

(** C3.  The test login leaves the administrative connection open: it
    connects, issues a session, logs the browser in and returns, and no
    close was called. *)
Theorem test_login_leaves_admin_connection_open :
  let run := test_login Demo.world Demo.config Demo.plain_request "alice"
               (Demo.start Demo.alice_server ∅) in
  fst run = Ok (Some (HttpResponseRedirect "/webclient")) /\
  count_events is_admin_connect (trace (snd run)) = 1%nat /\
  count_events is_admin_close (trace (snd run)) = 0%nat /\
  Demo.admin_open (world (snd run)) = true.
Proof. vm_compute. repeat split; reflexivity. Qed.

(** The same server after account resolution: the connection is closed. *)
Example account_resolution_closes_on_demo :
  let run := get_or_create_account_and_session Demo.world Demo.config
               "alice" "a@example.org" "oauth" "alice"
               (Demo.start Demo.alice_server ∅) in
  fst run = Ok (7, "session-of-alice") /\
  count_events is_admin_close (trace (snd run)) = 1%nat /\
  Demo.admin_open (world (snd run)) = false.
Proof. vm_compute. repeat split; reflexivity. Qed.

Lemma callback_missing_state_or_code_denied_witness :
  exists msg,
    callback Demo.world Demo.config Demo.forged_request (Demo.start Demo.empty_server ∅) =
    (Raise (PermissionDenied msg), Demo.start Demo.empty_server ∅).
Proof.
  apply callback_missing_state_or_code_denied. left. reflexivity.
Defined.

Lemma existing_account_no_creation_witness :
  exists r st' tail,
    get_or_create_account_and_session Demo.world Demo.config
      "alice" "a@example.org" "oauth" "alice" (Demo.start Demo.alice_server ∅)
      = (r, st') /\
    trace st' =
      ([] ++
       [EvAdminConnect "localhost" 4064 "root" "omero";
        EvGetObject "Experimenter" "omeName" "alice"] ++ tail)%list /\
    (tail = [EvGetSessionService; EvAdminClose] \/
     tail = [EvGetSessionService;
             EvCreateSession "alice" "User" (86400 * 1000);
             EvAdminClose]) /\
    count_events is_creation (trace st') = count_events is_creation [] /\
    (forall uid' tok,
        r = Ok (uid', tok) ->
        uid' = 7 /\
        tail = [EvGetSessionService;
                EvCreateSession "alice" "User" (86400 * 1000);
                EvAdminClose]).
Proof.
  eapply (existing_account_no_creation Demo.world Demo.config
            "alice" "a@example.org" "oauth" "alice" (Demo.start Demo.alice_server ∅));
    reflexivity.
Defined.


Lemma alice_account_resolution_witness :
  _expand_template Demo.world Demo.config "OAUTH_USER_NAME" alice_userinfo
    = Ok "alice" /\
  _expand_template Demo.world Demo.config "OAUTH_USER_EMAIL" alice_userinfo
    = Ok "a@example.org" /\
  exists delta st',
    get_or_create_account_and_session Demo.world Demo.config
      "alice" "a@example.org" "oauth" "alice"
      (Demo.start Demo.empty_server ∅)
      = (Ok (101, "session-of-alice"), st') /\
    trace st' = ([] ++ delta)%list /\
    delta !! 1%nat = Some (EvGetObject "Experimenter" "omeName" "alice") /\
    count_events is_account_lookup delta = 1%nat /\
    count_events is_create_user delta = 1%nat /\
    count_events is_create_group delta = 1%nat /\
    (count_events is_create_group delta <= 1)%nat /\
    count_events is_session_issuance delta = 1%nat /\
    In (EvCreateSession "alice" "User" (86400 * 1000)) delta /\
    PyStr "session-of-alice" <> PyInt 101.
Proof.
  eapply (alice_account_resolution Demo.world Demo.config "oauth" "alice"
            (Demo.start Demo.empty_server ∅) _ _ _ _ None);
    reflexivity.
Defined.

(** On a server that has the group already, no group is created. *)
Lemma alice_account_resolution_group_exists :
  let run := get_or_create_account_and_session Demo.world Demo.config
               "alice" "a@example.org" "oauth" "alice"
               (Demo.start Demo.group_only_server ∅) in
  fst run = Ok (100, "session-of-alice") /\
  count_events is_create_user (trace (snd run)) = 1%nat /\
  count_events is_create_group (trace (snd run)) = 0%nat.
Proof. vm_compute. repeat split; reflexivity. Qed.

Lemma index_redirects_when_logged_in_witness :
  exists url st',
    index Demo.world Demo.config Demo.plain_request
      (Kwargs (Some 5%nat) None) (Demo.start Demo.empty_server ∅)
      = (Ok (HttpResponseRedirect url), st') /\
    ((exists lr w2,
         Some "webclient" = Some lr /\
         co_parse_url Demo.world lr Demo.empty_server = (Ok url, w2)) \/
     (exists w2 w3,
         ((Some "webclient" = None /\ w2 = Demo.empty_server) \/
          (exists lr e,
              Some "webclient" = Some lr /\
              co_parse_url Demo.world lr Demo.empty_server = (Raise e, w2))) /\
         co_reverse Demo.world "webindex" w2 = (Ok url, w3))) /\
    session st' = ∅ /\
    count_events is_render (trace st') = count_events is_render [].
Proof.
  apply (index_redirects_when_logged_in Demo.world Demo.config
           Demo.plain_request (Kwargs (Some 5%nat) None)
           (Demo.start Demo.empty_server ∅) 5%nat).
  - intros w. now exists "/webindex/", w.
  - left. repeat split.
Defined.

Lemma index_renders_sign_in_when_not_logged_in_witness :
  exists st',
    index Demo.world Demo.config Demo.plain_request (Kwargs None None)
      (Demo.start Demo.empty_server ∅)
      = (Ok (HttpResponse
               "<a href=https://idp.example.org/authorize?client_id=client>"),
         st') /\
    world st' = Demo.Server ∅ ∅ 100 1 false /\
    session st' = <["oauth_state" := SText "a-state"]> ∅ /\
    session st' !! "oauth_state" = Some (SText "a-state") /\
    session_truthy (session st' !! "oauth_state") = true /\
    sign_in_context Demo.config
      "https://idp.example.org/authorize?client_id=client"
      !! "authorization_url"
      = Some "https://idp.example.org/authorize?client_id=client" /\
    trace st' =
      ([] ++
       [EvGetConnection None;
        EvAuthorizationUrl "client" "read" "https://idp.example.org/authorize";
        EvRender "oauth/index.html"
          (sign_in_context Demo.config
             "https://idp.example.org/authorize?client_id=client")])%list.
Proof.
  apply (index_renders_sign_in_when_not_logged_in Demo.world Demo.config
           Demo.plain_request (Kwargs None None)
           (Demo.start Demo.empty_server ∅) (Ok None) ∅ Demo.empty_server
           "https://idp.example.org/authorize?client_id=client" "a-state"
           (Demo.Server ∅ ∅ 100 1 false)
           "<a href=https://idp.example.org/authorize?client_id=client>"
           (Demo.Server ∅ ∅ 100 1 false)).
  - reflexivity.
  - reflexivity.
  - left. reflexivity.
  - reflexivity.
  - discriminate.
  - reflexivity.
Defined.



(** * Further properties of the handlers *)

(** ** Account resolution, its failures and its group *)

Section AccountFailures.

Context {W : Type}.
Variable co : collaborators W.
Variable cfg : settings.

(** X3.  When the gateway does not connect, account resolution stops at
    once: it raises the gateway's own exception if [connect] raised, and
    [Exception('Failed to get account (unable to obtain admin connection)')]
    if [connect] returned false.  The connect call is the only call made:
    nothing is looked up, created or closed. *)
Theorem account_resolution_refused
        omename email_ firstname lastname st r w1 :
  co_admin_connect co (OAUTH_HOST cfg) (OAUTH_PORT cfg)
    (OAUTH_ADMIN_USERNAME cfg) (OAUTH_ADMIN_PASSWORD cfg) (world st)
    = (r, w1) ->
  r <> Ok true ->
  get_or_create_account_and_session co cfg
    omename email_ firstname lastname st =
  (match r with
   | Raise e => Raise e
   | Ok _ =>
       Raise (Exception_
                ["Failed to get account (unable to obtain admin connection)"])
   end,
   State w1 (session st)
     (trace st ++
      [EvAdminConnect (OAUTH_HOST cfg) (OAUTH_PORT cfg)
         (OAUTH_ADMIN_USERNAME cfg) (OAUTH_ADMIN_PASSWORD cfg)])).
Proof.
  intros Hc Hr. unfold get_or_create_account_and_session.
  destruct r as [[|]|e]; [congruence| |].
  - erewrite bind_ok; [|apply call_run; exact Hc]. reflexivity.
  - erewrite bind_raise; [|apply call_run; exact Hc]. reflexivity.
Qed.

(** X4.  When the account lookup raises, account resolution closes the
    administrative connection and lets the exception through; if the close
    raises too, its exception is the one that comes out.  Nothing is
    created and no session is asked for. *)
Theorem account_lookup_failure_closes
        omename email_ firstname lastname st w1 e w2 rc w3 :
  co_admin_connect co (OAUTH_HOST cfg) (OAUTH_PORT cfg)
    (OAUTH_ADMIN_USERNAME cfg) (OAUTH_ADMIN_PASSWORD cfg) (world st)
    = (Ok true, w1) ->
  co_getObject co "Experimenter" "omeName" omename w1 = (Raise e, w2) ->
  co_admin_close co w2 = (rc, w3) ->
  get_or_create_account_and_session co cfg
    omename email_ firstname lastname st =
  (Raise (match rc with Ok _ => e | Raise e' => e' end),
   State w3 (session st)
     (trace st ++
      [EvAdminConnect (OAUTH_HOST cfg) (OAUTH_PORT cfg)
         (OAUTH_ADMIN_USERNAME cfg) (OAUTH_ADMIN_PASSWORD cfg);
       EvGetObject "Experimenter" "omeName" omename;
       EvAdminClose])).
Proof.
  intros Hc Hl Hx. unfold get_or_create_account_and_session.
  erewrite bind_ok; [|apply call_run; exact Hc]. cbn [negb].
  unfold try_finally.
  erewrite bind_raise; [|apply call_run; exact Hl].
  unfold admin_close, call. simpl. rewrite Hx.
  destruct rc as [[]|e']; simpl; now rewrite <- !app_assoc.
Qed.

(** X5.  Account creation is not undone.  When the account has been
    created and the session service then fails, account resolution closes
    the connection and raises, and the creation call stays the last thing
    done for the account: no session is issued and nothing is deleted. *)
Theorem account_stays_when_session_fails
        omename email_ firstname lastname
        st w1 w2 gname w2' g w3 gid w4 uid w5 e w6 w7 :
  co_admin_connect co (OAUTH_HOST cfg) (OAUTH_PORT cfg)
    (OAUTH_ADMIN_USERNAME cfg) (OAUTH_ADMIN_PASSWORD cfg) (world st)
    = (Ok true, w1) ->
  co_getObject co "Experimenter" "omeName" omename w1 = (Ok None, w2) ->
  (if OAUTH_GROUP_NAME_TEMPLATETIME cfg
   then co_now_strftime co (OAUTH_GROUP_NAME cfg) w2
   else (Ok (OAUTH_GROUP_NAME cfg), w2)) = (Ok gname, w2') ->
  co_getObject co "ExperimenterGroup" "name" gname w2' = (Ok g, w3) ->
  match g with
  | Some found => gid = found /\ w4 = w3
  | None =>
      co_createGroup co gname (OAUTH_GROUP_PERMS cfg) w3 = (Ok gid, w4)
  end ->
  co_createExperimenter co
    (Experimenter omename firstname lastname email_ false true gid [] None)
    w4 = (Ok uid, w5) ->
  co_getSessionService co w5 = (Raise e, w6) ->
  co_admin_close co w6 = (Ok tt, w7) ->
  exists before,
    get_or_create_account_and_session co cfg
      omename email_ firstname lastname st =
    (Raise e,
     State w7 (session st)
       (trace st ++ before ++
        [EvCreateExperimenter
           (Experimenter omename firstname lastname email_
              false true gid [] None);
         EvGetSessionService;
         EvAdminClose])) /\
    count_events is_create_user before = 0%nat /\
    count_events is_session_issuance before = 0%nat.
Proof.
  intros Hc Hl Hn Hg Hgid Hu Hs Hx.
  exists ([EvAdminConnect (OAUTH_HOST cfg) (OAUTH_PORT cfg)
             (OAUTH_ADMIN_USERNAME cfg) (OAUTH_ADMIN_PASSWORD cfg);
           EvGetObject "Experimenter" "omeName" omename] ++
          (if OAUTH_GROUP_NAME_TEMPLATETIME cfg
           then [EvNow (OAUTH_GROUP_NAME cfg)] else []) ++
          [EvGetObject "ExperimenterGroup" "name" gname] ++
          (match g with
           | Some _ => []
           | None => [EvCreateGroup gname (OAUTH_GROUP_PERMS cfg)]
           end))%list.
  split.
  - unfold get_or_create_account_and_session.
    erewrite bind_ok; [|apply call_run; exact Hc]. cbn [negb].
    unfold try_finally.
    erewrite bind_ok; [|apply call_run; exact Hl].
    unfold get_or_create_group, create_user, get_session_for_user,
      admin_close.
    unfold mbind, M_bind, bind, mret, M_ret, ret, call. simpl.
    destruct (OAUTH_GROUP_NAME_TEMPLATETIME cfg); simpl.
    + rewrite Hn. simpl. rewrite Hg. simpl.
      destruct g as [found|]; simpl.
      * destruct Hgid as [-> ->]. rewrite Hu. simpl. rewrite Hs. simpl.
        rewrite Hx. simpl. now rewrite <- !app_assoc.
      * rewrite Hgid. simpl. rewrite Hu. simpl. rewrite Hs. simpl.
        rewrite Hx. simpl. now rewrite <- !app_assoc.
    + injection Hn as <- <-. rewrite Hg. simpl.
      destruct g as [found|]; simpl.
      * destruct Hgid as [-> ->]. rewrite Hu. simpl. rewrite Hs. simpl.
        rewrite Hx. simpl. now rewrite <- !app_assoc.
      * rewrite Hgid. simpl. rewrite Hu. simpl. rewrite Hs. simpl.
        rewrite Hx. simpl. now rewrite <- !app_assoc.
  - destruct (OAUTH_GROUP_NAME_TEMPLATETIME cfg), g;
      unfold count_events; simpl; split; reflexivity.
Qed.

(** X6.  [get_or_create_group] on a group that exists returns its
    identifier and creates nothing.  The name it looks up is the one it was
    given; without a name (or with an empty one) it is the configured name,
    passed through the clock when the name is a time template. *)
Theorem get_or_create_group_found groupname st gname w1 gid w2 :
  (if text_truthy groupname then (Ok (default "" groupname), world st)
   else if OAUTH_GROUP_NAME_TEMPLATETIME cfg
        then co_now_strftime co (OAUTH_GROUP_NAME cfg) (world st)
        else (Ok (OAUTH_GROUP_NAME cfg), world st)) = (Ok gname, w1) ->
  co_getObject co "ExperimenterGroup" "name" gname w1 = (Ok (Some gid), w2) ->
  exists st',
    get_or_create_group co cfg groupname st = (Ok gid, st') /\
    world st' = w2 /\
    trace st' =
      (trace st ++
       (if text_truthy groupname then []
        else if OAUTH_GROUP_NAME_TEMPLATETIME cfg
             then [EvNow (OAUTH_GROUP_NAME cfg)] else []) ++
       [EvGetObject "ExperimenterGroup" "name" gname])%list /\
    count_events is_creation (trace st') = count_events is_creation (trace st).
Proof.
  intros Hn Hl. unfold get_or_create_group.
  unfold mbind, M_bind, bind, mret, M_ret, ret, call.
  destruct (text_truthy groupname); simpl.
  - injection Hn as <- <-. rewrite Hl. simpl. eexists.
    split; [reflexivity|]. simpl. split; [reflexivity|].
    split; [reflexivity|].
    rewrite count_events_app. unfold count_events at 2. simpl. lia.
  - destruct (OAUTH_GROUP_NAME_TEMPLATETIME cfg); simpl.
    + rewrite Hn. simpl. rewrite Hl. simpl. eexists.
      split; [reflexivity|]. simpl. split; [reflexivity|].
      split; [now rewrite <- !app_assoc|].
      rewrite !count_events_app. unfold count_events at 2 3. simpl. lia.
    + injection Hn as <- <-. rewrite Hl. simpl. eexists.
      split; [reflexivity|]. simpl. split; [reflexivity|].
      split; [reflexivity|].
      rewrite count_events_app. unfold count_events at 2. simpl. lia.
Qed.

(** X7.  [get_or_create_group] on a group that does not exist creates it,
    under the very name it looked up and with the configured permissions,
    and hands back what the creation call answered: the new identifier, or
    the exception of the call. *)
Theorem get_or_create_group_created groupname st gname w1 w2 r w3 :
  (if text_truthy groupname then (Ok (default "" groupname), world st)
   else if OAUTH_GROUP_NAME_TEMPLATETIME cfg
        then co_now_strftime co (OAUTH_GROUP_NAME cfg) (world st)
        else (Ok (OAUTH_GROUP_NAME cfg), world st)) = (Ok gname, w1) ->
  co_getObject co "ExperimenterGroup" "name" gname w1 = (Ok None, w2) ->
  co_createGroup co gname (OAUTH_GROUP_PERMS cfg) w2 = (r, w3) ->
  exists st',
    get_or_create_group co cfg groupname st = (r, st') /\
    world st' = w3 /\
    trace st' =
      (trace st ++
       (if text_truthy groupname then []
        else if OAUTH_GROUP_NAME_TEMPLATETIME cfg
             then [EvNow (OAUTH_GROUP_NAME cfg)] else []) ++
       [EvGetObject "ExperimenterGroup" "name" gname;
        EvCreateGroup gname (OAUTH_GROUP_PERMS cfg)])%list.
Proof.
  intros Hn Hl Hcr. unfold get_or_create_group.
  unfold mbind, M_bind, bind, mret, M_ret, ret, call.
  destruct (text_truthy groupname); simpl.
  - injection Hn as <- <-. rewrite Hl. simpl. rewrite Hcr. eexists.
    split; [reflexivity|]. simpl. split; [reflexivity|].
    now rewrite <- !app_assoc.
  - destruct (OAUTH_GROUP_NAME_TEMPLATETIME cfg); simpl.
    + rewrite Hn. simpl. rewrite Hl. simpl. rewrite Hcr. eexists.
      split; [reflexivity|]. simpl. split; [reflexivity|].
      now rewrite <- !app_assoc.
    + injection Hn as <- <-. rewrite Hl. simpl. rewrite Hcr. eexists.
      split; [reflexivity|]. simpl. split; [reflexivity|].
      now rewrite <- !app_assoc.
Qed.

End AccountFailures.

(** ** What the session keeps *)

Section KeepsFacts.

Context {W : Type}.
Variable key : string.

Lemma keeps_silent {A} (c : M W A) :
  (forall st, session (snd (c st)) = session st) -> keeps_session_key key c.
Proof. intros H st. now rewrite H. Qed.

Lemma keeps_ret {A} (a : A) : keeps_session_key key (mret a : M W A).
Proof. now apply keeps_silent. Qed.

Lemma keeps_raise {A} e : keeps_session_key key (raise e : M W A).
Proof. now apply keeps_silent. Qed.

Lemma keeps_lift {A} (r : result A) : keeps_session_key key (lift r : M W A).
Proof. now apply keeps_silent. Qed.

Lemma keeps_session_get k : keeps_session_key key (session_get k : M W _).
Proof. now apply keeps_silent. Qed.

Lemma keeps_call {A} ev (op : W -> result A * W) :
  keeps_session_key key (call ev op).
Proof.
  apply keeps_silent. intros st. unfold call.
  now destruct (op (world st)).
Qed.

Lemma keeps_render (co : collaborators W) template context rq :
  keeps_session_key key (render co template context rq).
Proof.
  apply keeps_silent. intros st. unfold render.
  now destruct (co_render co template context rq (session st) (world st)).
Qed.

Lemma keeps_session_set k v :
  k <> key -> keeps_session_key key (session_set k v : M W _).
Proof. intros Hk st. simpl. now apply lookup_insert_ne. Qed.

Lemma keeps_bind {A B} (c : M W A) (k : A -> M W B) :
  keeps_session_key key c -> (forall a, keeps_session_key key (k a)) ->
  keeps_session_key key (c ≫= k).
Proof.
  intros Hc Hk st. unfold mbind, M_bind, bind.
  specialize (Hc st). destruct (c st) as [[a|e] st']; simpl in Hc.
  - now rewrite Hk.
  - exact Hc.
Qed.

Lemma keeps_try_except {A} (body handler : M W A) :
  keeps_session_key key body -> keeps_session_key key handler ->
  keeps_session_key key (try_except body handler).
Proof.
  intros Hb Hh st. unfold try_except.
  specialize (Hb st). destruct (body st) as [[a|e] st']; simpl in Hb.
  - exact Hb.
  - now rewrite Hh.
Qed.

Lemma keeps_try_except_attribute {A} (body handler : M W A) :
  keeps_session_key key body -> keeps_session_key key handler ->
  keeps_session_key key (try_except_attribute body handler).
Proof.
  intros Hb Hh st. unfold try_except_attribute.
  specialize (Hb st). destruct (body st) as [[a|e] st']; simpl in Hb.
  - exact Hb.
  - destruct e; try exact Hb. now rewrite Hh.
Qed.

Lemma keeps_try_finally {A} (body : M W A) (cleanup : M W unit) :
  keeps_session_key key body -> keeps_session_key key cleanup ->
  keeps_session_key key (try_finally body cleanup).
Proof.
  intros Hb Hc st. unfold try_finally.
  specialize (Hb st). destruct (body st) as [r st']. simpl in Hb.
  specialize (Hc st'). destruct (cleanup st') as [[u|e] st'']; simpl in *;
    congruence.
Qed.

End KeepsFacts.

Ltac keeps_step :=
  lazymatch goal with
  | |- keeps_session_key _ (_ ≫= _) => apply keeps_bind; [|intros ?]
  | |- keeps_session_key _ (mret _) => apply keeps_ret
  | |- keeps_session_key _ (raise _) => apply keeps_raise
  | |- keeps_session_key _ (lift _) => apply keeps_lift
  | |- keeps_session_key _ (session_get _) => apply keeps_session_get
  | |- keeps_session_key _ (session_set _ _) =>
      apply keeps_session_set; discriminate
  | |- keeps_session_key _ (call _ _) => apply keeps_call
  | |- keeps_session_key _ (render _ _ _ _) => apply keeps_render
  | |- keeps_session_key _ (try_except _ _) => apply keeps_try_except
  | |- keeps_session_key _ (try_except_attribute _ _) =>
      apply keeps_try_except_attribute
  | |- keeps_session_key _ (try_finally _ _) => apply keeps_try_finally
  | |- keeps_session_key _ (if ?b then _ else _) => destruct b
  | |- keeps_session_key _ (match ?x with _ => _ end) => destruct x
  end.

Ltac keeps_auto := repeat keeps_step.

(** ** The callback, the framework login and the test login *)

Section HandlerFacts.

Context {W : Type}.
Variable co : collaborators W.
Variable cfg : settings.

Lemma handle_logged_in_given_conn_keeps key rq c sid :
  keeps_session_key key (handle_logged_in co cfg rq (Kwargs (Some c) sid)).
Proof.
  unfold handle_logged_in, parse_login_redirect. cbn [kw_conn].
  keeps_auto.
Qed.

Lemma login_with_session_keeps key rq sess :
  key <> "connector" ->
  keeps_session_key key (login_with_session co cfg rq sess).
Proof.
  intros Hk. unfold login_with_session, getattr_upgrades_url.
  repeat lazymatch goal with
         | |- keeps_session_key _ (session_set _ _) =>
             apply keeps_session_set; congruence
         | |- keeps_session_key _ (handle_logged_in _ _ _ _) =>
             apply handle_logged_in_given_conn_keeps
         | _ => keeps_step
         end.
Qed.

(** X8.  Every session that the handlers ask the server for is a session
    of event type [User] whose timeout is the configured number of seconds
    times one thousand: in account resolution, in the callback and in the
    test login. *)
Theorem sessions_are_user_sessions_with_configured_timeout :
  (forall omename email_ firstname lastname,
      emits (issues_user_sessions cfg)
        (get_or_create_account_and_session co cfg
           omename email_ firstname lastname)) /\
  (forall rq, emits (issues_user_sessions cfg) (callback co cfg rq)) /\
  (forall rq username,
      emits (issues_user_sessions cfg) (test_login co cfg rq username)).
Proof.
  assert (Hres : forall o e f l,
    emits (issues_user_sessions cfg)
      (get_or_create_account_and_session co cfg o e f l)).
  { intros o e f l.
    unfold get_or_create_account_and_session, admin_connect, admin_close,
      get_or_create_group, create_user, get_session_for_user.
    emits_auto; now split. }
  assert (Hlog : forall rq s,
    emits (issues_user_sessions cfg) (login_with_session co cfg rq s)).
  { intros rq s. apply login_with_session_emits.
    - intros ev Ha _ _ _. now destruct ev.
    - intros c ip. exact I. }
  split; [exact Hres|]. split.
  - intros rq. unfold callback. emits_auto.
  - intros rq username.
    unfold test_login, admin_connect, get_session_for_user.
    emits_auto; now split.
Qed.

(** X12.  The callback does not use up the CSRF state: whatever it does,
    the entry [oauth_state] of the session is afterwards what it was
    before, so the same state passes the check of a later callback.  The
    test login leaves it alone as well. *)
Theorem callback_keeps_csrf_state :
  (forall rq, keeps_session_key "oauth_state" (callback co cfg rq)) /\
  (forall rq username,
      keeps_session_key "oauth_state" (test_login co cfg rq username)).
Proof.
  assert (Hlog : forall rq s,
    keeps_session_key "oauth_state" (login_with_session co cfg rq s)).
  { intros rq s. now apply login_with_session_keeps. }
  split.
  - intros rq.
    unfold callback, get_or_create_account_and_session, admin_connect,
      admin_close, get_or_create_group, create_user, get_session_for_user.
    repeat lazymatch goal with
           | |- keeps_session_key _ (login_with_session _ _ _ _) => apply Hlog
           | _ => keeps_step
           end.
  - intros rq username.
    unfold test_login, admin_connect, get_session_for_user.
    repeat lazymatch goal with
           | |- keeps_session_key _ (login_with_session _ _ _ _) => apply Hlog
           | _ => keeps_step
           end.
Qed.

(** X10.  When the token exchange fails, the callback lets the library's
    exception through as it is (it does not turn it into
    [PermissionDenied]) and stops there: the userinfo resource is not
    fetched, nothing is asked of the administrative connection and the
    session is untouched. *)
Theorem callback_token_exchange_failure rq st e w1 :
  session_truthy (session st !! "oauth_state") = true ->
  text_truthy (GET rq !! "code") = true ->
  co_fetch_token co (OAUTH_CLIENT_ID cfg)
    (default (SText "") (session st !! "oauth_state"))
    (OAUTH_URL_TOKEN cfg) (OAUTH_CLIENT_SECRET cfg)
    (default "" (GET rq !! "code")) (world st) = (Raise e, w1) ->
  callback co cfg rq st =
  (Raise e,
   State w1 (session st)
     (trace st ++
      [EvFetchToken (OAUTH_CLIENT_ID cfg)
         (default (SText "") (session st !! "oauth_state"))
         (OAUTH_URL_TOKEN cfg) (OAUTH_CLIENT_SECRET cfg)
         (default "" (GET rq !! "code"))])).
Proof.
  intros H1 H2 H3. unfold callback.
  unfold mbind at 1. unfold M_bind at 1. unfold bind at 1.
  unfold session_get. rewrite H1. cbn [negb]. rewrite H2. cbn [negb].
  erewrite bind_raise; [|apply call_run; exact H3]. reflexivity.
Qed.

(** X11.  When the userinfo fetch fails after a successful token exchange,
    the callback lets that exception through: no template is expanded and
    nothing is asked of the administrative connection. *)
Theorem callback_userinfo_failure rq st token w1 e w2 :
  session_truthy (session st !! "oauth_state") = true ->
  text_truthy (GET rq !! "code") = true ->
  co_fetch_token co (OAUTH_CLIENT_ID cfg)
    (default (SText "") (session st !! "oauth_state"))
    (OAUTH_URL_TOKEN cfg) (OAUTH_CLIENT_SECRET cfg)
    (default "" (GET rq !! "code")) (world st) = (Ok token, w1) ->
  co_userinfo co (OAUTH_CLIENT_ID cfg)
    (default (SText "") (session st !! "oauth_state")) token
    (OAUTH_URL_USERINFO cfg) w1 = (Raise e, w2) ->
  callback co cfg rq st =
  (Raise e,
   State w2 (session st)
     (trace st ++
      [EvFetchToken (OAUTH_CLIENT_ID cfg)
         (default (SText "") (session st !! "oauth_state"))
         (OAUTH_URL_TOKEN cfg) (OAUTH_CLIENT_SECRET cfg)
         (default "" (GET rq !! "code"));
       EvUserinfo (OAUTH_CLIENT_ID cfg)
         (default (SText "") (session st !! "oauth_state")) token
         (OAUTH_URL_USERINFO cfg)])).
Proof.
  intros H1 H2 H3 H4. unfold callback.
  unfold mbind at 1. unfold M_bind at 1. unfold bind at 1.
  unfold session_get. rewrite H1. cbn [negb]. rewrite H2. cbn [negb].
  erewrite bind_ok; [|apply call_run; exact H3].
  erewrite bind_raise; [|apply call_run; simpl; exact H4].
  simpl. now rewrite <- app_assoc.
Qed.

End HandlerFacts.

Section LoginFailures.

Context {W : Type}.
Variable co : collaborators W.
Variable cfg : settings.

(** X13.  When versions are checked and the server is found incompatible,
    the framework login raises [Exception('Incompatible server')] without
    trying to connect: the version check is the only call, and the session
    is untouched. *)
Theorem login_incompatible_server rq sess st w1 :
  CHECK_VERSION cfg = true ->
  co_check_version co (Connector 1 (SECURE cfg)) USERAGENT (world st)
    = (Ok false, w1) ->
  login_with_session co cfg rq sess st =
  (Raise (Exception_ ["Incompatible server"]),
   State w1 (session st)
     (trace st ++ [EvCheckVersion (Connector 1 (SECURE cfg)) USERAGENT])).
Proof.
  intros Hv Hc. unfold login_with_session. rewrite Hv.
  erewrite bind_ok; [|apply call_run; exact Hc]. reflexivity.
Qed.

(** X14.  When the connector gives no connection, the framework login
    raises [Exception('Failed to login with session %s', session)]: the
    connector is not stored in the session, and no upgrade check and no
    redirect follow. *)
Theorem login_without_connection rq sess st w1 w2 :
  (if CHECK_VERSION cfg
   then co_check_version co (Connector 1 (SECURE cfg)) USERAGENT (world st)
   else (Ok true, world st)) = (Ok true, w1) ->
  co_create_connection co (Connector 1 (SECURE cfg)) USERAGENT sess sess
    (co_get_client_ip co (META rq)) w1 = (Ok None, w2) ->
  login_with_session co cfg rq sess st =
  (Raise (Exception_ ["Failed to login with session %s"; sess]),
   State w2 (session st)
     (trace st ++
      (if CHECK_VERSION cfg
       then [EvCheckVersion (Connector 1 (SECURE cfg)) USERAGENT] else []) ++
      [EvCreateConnection (Connector 1 (SECURE cfg)) USERAGENT sess sess
         (co_get_client_ip co (META rq))])).
Proof.
  intros Hv Hc. unfold login_with_session.
  destruct (CHECK_VERSION cfg).
  - erewrite bind_ok; [|apply call_run; exact Hv]. cbv beta iota zeta.
    erewrite bind_ok; [|apply call_run; exact Hc]. simpl.
    now rewrite <- !app_assoc.
  - injection Hv as <-.
    erewrite bind_ok; [|reflexivity]. cbv beta iota zeta.
    erewrite bind_ok; [|apply call_run; exact Hc]. reflexivity.
Qed.

Lemma try_finally_call {A} (body : M W A) ev (op : W -> result unit * W) st :
  trace (snd (try_finally body (call ev op) st)) =
    (trace (snd (body st)) ++ [ev])%list /\
  session (snd (try_finally body (call ev op) st)) = session (snd (body st)).
Proof.
  unfold try_finally, call. destruct (body st) as [r st1]. simpl.
  now destruct (op (world st1)) as [[u|e] w'].
Qed.

(** X15.  Once the connector has given a connection, the framework login
    stores the connector in the session and closes the connection as its
    last act, whether the upgrade check and the redirect went through or
    raised.  Between the two there is no second login and no call to the
    provider or to the administrative connection. *)
Theorem login_closes_connection rq sess st w1 cn w2 :
  (if CHECK_VERSION cfg
   then co_check_version co (Connector 1 (SECURE cfg)) USERAGENT (world st)
   else (Ok true, world st)) = (Ok true, w1) ->
  co_create_connection co (Connector 1 (SECURE cfg)) USERAGENT sess sess
    (co_get_client_ip co (META rq)) w1 = (Ok (Some cn), w2) ->
  exists mid,
    trace (snd (login_with_session co cfg rq sess st)) =
      (trace st ++
       (if CHECK_VERSION cfg
        then [EvCheckVersion (Connector 1 (SECURE cfg)) USERAGENT] else []) ++
       [EvCreateConnection (Connector 1 (SECURE cfg)) USERAGENT sess sess
          (co_get_client_ip co (META rq))] ++
       mid ++ [EvConnClose cn])%list /\
    Forall no_provider_no_admin mid /\
    session (snd (login_with_session co cfg rq sess st)) !! "connector" =
      Some (SConnector (Connector 1 (SECURE cfg))).
Proof.
  intros Hv Hc.
  assert (Hbody : forall s : state W,
    exists mid,
      trace (snd (try_finally
                    (_ ← session_set "connector"
                           (SConnector (Connector 1 (SECURE cfg)));
                     upgrades_url ←
                       try_except_attribute (getattr_upgrades_url cfg)
                         (call (EvGetUpgradesUrl cn)
                            (co_getUpgradesUrl co cn));
                     _ ← call (EvUpgradeCheck upgrades_url)
                           (co_upgradeCheck co upgrades_url);
                     handle_logged_in co cfg rq (Kwargs (Some cn) None))
                    (call (EvConnClose cn) (co_conn_close co cn)) s)) =
        (trace s ++ mid ++ [EvConnClose cn])%list /\
      Forall no_provider_no_admin mid /\
      session (snd (try_finally
                      (_ ← session_set "connector"
                             (SConnector (Connector 1 (SECURE cfg)));
                       upgrades_url ←
                         try_except_attribute (getattr_upgrades_url cfg)
                           (call (EvGetUpgradesUrl cn)
                              (co_getUpgradesUrl co cn));
                       _ ← call (EvUpgradeCheck upgrades_url)
                             (co_upgradeCheck co upgrades_url);
                       handle_logged_in co cfg rq (Kwargs (Some cn) None))
                      (call (EvConnClose cn) (co_conn_close co cn)) s))
        !! "connector" = Some (SConnector (Connector 1 (SECURE cfg)))).
  { intros s.
    match goal with
    | |- context [try_finally ?b (call ?ev ?op) s] =>
        destruct (try_finally_call b ev op s) as [T S];
        assert (He : emits no_provider_no_admin b);
        [|assert (Hk : session (snd (b s)) !! "connector" =
                       Some (SConnector (Connector 1 (SECURE cfg))))]
    end.
    - unfold getattr_upgrades_url. emits_auto; try (now repeat split).
      apply handle_logged_in_emits; intros; now repeat split.
    - rewrite (bind_ok _ _ s tt
                 (State (world s)
                    (<["connector" :=
                         SConnector (Connector 1 (SECURE cfg))]> (session s))
                    (trace s))) by reflexivity.
      match goal with
      | |- session (snd (?rest ?s1)) !! _ = _ =>
          assert (Hr : keeps_session_key "connector" rest)
      end.
      { unfold getattr_upgrades_url.
        repeat lazymatch goal with
               | |- keeps_session_key _ (handle_logged_in _ _ _ _) =>
                   apply handle_logged_in_given_conn_keeps
               | _ => keeps_step
               end. }
      rewrite Hr. simpl. now rewrite lookup_insert_eq.
    - destruct (He s) as (mid & Em & Fm). exists mid.
      rewrite T, S, Em, <- app_assoc. now repeat split. }
  unfold login_with_session.
  destruct (CHECK_VERSION cfg).
  - erewrite bind_ok; [|apply call_run; exact Hv]. cbv beta iota zeta.
    erewrite bind_ok; [|apply call_run; exact Hc]. cbv beta iota.
    match goal with
    | |- context [try_finally _ _ ?s] =>
        destruct (Hbody s) as (mid & T & F & S)
    end.
    exists mid. rewrite T, S. simpl. rewrite <- !app_assoc. now repeat split.
  - injection Hv as <-.
    erewrite bind_ok; [|reflexivity]. cbv beta iota zeta.
    erewrite bind_ok; [|apply call_run; exact Hc]. cbv beta iota.
    match goal with
    | |- context [try_finally _ _ ?s] =>
        destruct (Hbody s) as (mid & T & F & S)
    end.
    exists mid. rewrite T, S. simpl. rewrite <- !app_assoc. now repeat split.
Qed.

(** X16.  The test login asks nothing of the identity provider and does
    not look the account up or create anything: it issues a session for
    whatever user name it is given.  It reads no query parameter, so it
    needs neither a code nor a state. *)
Theorem test_login_without_provider rq username :
  emits no_provider_no_account (test_login co cfg rq username) /\
  (forall query st,
      test_login co cfg (Request query (META rq)) username st =
      test_login co cfg rq username st).
Proof.
  split.
  - unfold test_login, admin_connect, get_session_for_user.
    emits_auto; try (now repeat split).
    apply login_with_session_emits.
    + intros ev Ha Hp _ _. destruct ev; try discriminate; now repeat split.
    + intros c ip. now repeat split.
  - intros query st. destruct rq as [g m]. reflexivity.
Qed.

(** X17.  When the gateway returns false on connect, the test login fails
    its assertion: it raises [AssertionError] and has issued no session. *)
Theorem test_login_connection_refused rq username st w1 :
  co_admin_connect co (OAUTH_HOST cfg) (OAUTH_PORT cfg)
    (OAUTH_ADMIN_USERNAME cfg) (OAUTH_ADMIN_PASSWORD cfg) (world st)
    = (Ok false, w1) ->
  test_login co cfg rq username st =
  (Raise AssertionError,
   State w1 (session st)
     (trace st ++
      [EvAdminConnect (OAUTH_HOST cfg) (OAUTH_PORT cfg)
         (OAUTH_ADMIN_USERNAME cfg) (OAUTH_ADMIN_PASSWORD cfg)])).
Proof.
  intros Hc. unfold test_login.
  erewrite bind_ok; [|apply call_run; exact Hc]. reflexivity.
Qed.

(** X18.  The index page asks nothing of the identity provider's token and
    userinfo endpoints and nothing of the administrative connection, and it
    logs nobody in: all it calls are connection resolution, the landing URL
    helpers, the authorization URL builder and the renderer. *)
Theorem index_without_provider_or_admin rq kw :
  emits no_provider_no_admin (index co cfg rq kw).
Proof.
  unfold index, handle_not_logged_in.
  emits_auto; try (now repeat split).
  apply handle_logged_in_emits; intros; now repeat split.
Qed.

End LoginFailures.

(** ** Templates *)

Section TemplateFacts.

Context {W : Type}.
Variable co : collaborators W.
Variable cfg : settings.

Lemma format_scan_brace_free other args t :
  brace_free t = true -> format_scan other args InText t = Ok t.
Proof.
  induction t as [|c r IH]; intros Hb; [reflexivity|].
  simpl in Hb |- *.
  destruct (Ascii.eqb c lbrace); [discriminate|].
  destruct (Ascii.eqb c rbrace); [discriminate|].
  simpl in Hb. now rewrite IH.
Qed.

(** X19.  A configured template without braces expands to itself, whatever
    the userinfo response holds: a constant first name, say, needs no field
    of the provider. *)
Theorem expand_template_without_braces name template ui :
  getattr_oauth_settings cfg name = Ok template ->
  brace_free template = true ->
  _expand_template co cfg name ui = Ok template.
Proof.
  intros Hg Hb. unfold _expand_template. rewrite Hg.
  now apply format_scan_brace_free.
Qed.

(** X20.  A configured template of text, doubled braces and plain named
    fields expands exactly when the userinfo response has every field the
    template names; otherwise the expansion raises [KeyError] on a field
    that the template names and the response lacks. *)
Theorem expand_template_needs_its_fields name template fs ui :
  getattr_oauth_settings cfg name = Ok template ->
  template_fields template = Some fs ->
  ((exists out, _expand_template co cfg name ui = Ok out) <->
   Forall (fun f => is_Some (ui !! f)) fs) /\
  ((exists out, _expand_template co cfg name ui = Ok out) \/
   (exists k, k ∈ fs /\ ui !! k = None /\
              _expand_template co cfg name ui = Raise (KeyError k))).
Proof.
  intros Hg Ht. unfold _expand_template. rewrite Hg.
  destruct (format_plain_template (co_format_other_field co) ui template fs Ht)
    as [[Hall [out Ho]]|(k & Hk & Hn & Hr)].
  - split; [|left; eauto]. split; [intros _; exact Hall|eauto].
  - split; [|right; eauto]. split.
    + intros [out Ho]. congruence.
    + intros Hall. rewrite Forall_forall in Hall. specialize (Hall k Hk).
      rewrite Hn in Hall. now destruct Hall.
Qed.

End TemplateFacts.

(** ** The further properties on the concrete worlds *)

Lemma account_resolution_releases_witness :
  exists mid,
    trace (snd (get_or_create_account_and_session Demo.world Demo.config
                  "alice" "a@example.org" "oauth" "alice"
                  (Demo.start Demo.empty_server ∅))) =
      ([] ++ [EvAdminConnect "localhost" 4064 "root" "omero"] ++
       mid ++ [EvAdminClose])%list /\
    Forall inside_admin_connection mid.
Proof.
  eapply (account_resolution_releases Demo.world Demo.config
            "alice" "a@example.org" "oauth" "alice"
            (Demo.start Demo.empty_server ∅)).
  reflexivity.
Defined.

Lemma account_resolution_refused_witness :
  get_or_create_account_and_session (Faults.world Faults.refused) Demo.config
    "alice" "a@example.org" "oauth" "alice" (Demo.start Demo.empty_server ∅) =
  (Raise (Exception_
            ["Failed to get account (unable to obtain admin connection)"]),
   State Demo.empty_server ∅
     ([] ++ [EvAdminConnect "localhost" 4064 "root" "omero"])).
Proof.
  apply (account_resolution_refused (Faults.world Faults.refused) Demo.config
           "alice" "a@example.org" "oauth" "alice"
           (Demo.start Demo.empty_server ∅) (Ok false) Demo.empty_server).
  - reflexivity.
  - discriminate.
Defined.

Lemma account_lookup_failure_closes_witness :
  get_or_create_account_and_session (Faults.world Faults.lookup_down)
    Demo.config "alice" "a@example.org" "oauth" "alice"
    (Demo.start Demo.empty_server ∅) =
  (Raise (CollaboratorError "lookup failed"),
   State Demo.empty_server ∅
     ([] ++
      [EvAdminConnect "localhost" 4064 "root" "omero";
       EvGetObject "Experimenter" "omeName" "alice";
       EvAdminClose])).
Proof.
  apply (account_lookup_failure_closes (Faults.world Faults.lookup_down)
           Demo.config "alice" "a@example.org" "oauth" "alice"
           (Demo.start Demo.empty_server ∅)
           (Demo.Server ∅ ∅ 100 0 true) (CollaboratorError "lookup failed")
           (Demo.Server ∅ ∅ 100 0 true) (Ok tt) Demo.empty_server);
    reflexivity.
Defined.

Lemma account_stays_when_session_fails_witness :
  exists before,
    get_or_create_account_and_session (Faults.world Faults.no_session_service)
      Demo.config "alice" "a@example.org" "oauth" "alice"
      (Demo.start Demo.group_only_server ∅) =
    (Raise (CollaboratorError "no session service"),
     State (Demo.Server (<["alice" := 100]> ∅) {[ "oauth" := 3 ]} 101 0 false)
       ∅
       ([] ++ before ++
        [EvCreateExperimenter
           (Experimenter "alice" "oauth" "alice" "a@example.org"
              false true 3 [] None);
         EvGetSessionService;
         EvAdminClose])) /\
    count_events is_create_user before = 0%nat /\
    count_events is_session_issuance before = 0%nat.
Proof.
  apply (account_stays_when_session_fails
           (Faults.world Faults.no_session_service) Demo.config
           "alice" "a@example.org" "oauth" "alice"
           (Demo.start Demo.group_only_server ∅)
           (Demo.Server ∅ {[ "oauth" := 3 ]} 100 0 true)
           (Demo.Server ∅ {[ "oauth" := 3 ]} 100 0 true)
           "oauth"
           (Demo.Server ∅ {[ "oauth" := 3 ]} 100 0 true)
           (Some 3)
           (Demo.Server ∅ {[ "oauth" := 3 ]} 100 0 true)
           3
           (Demo.Server ∅ {[ "oauth" := 3 ]} 100 0 true)
           100
           (Demo.Server (<["alice" := 100]> ∅) {[ "oauth" := 3 ]} 101 0 true)
           (CollaboratorError "no session service")
           (Demo.Server (<["alice" := 100]> ∅) {[ "oauth" := 3 ]} 101 0 true)
           (Demo.Server (<["alice" := 100]> ∅) {[ "oauth" := 3 ]} 101 0
              false));
    try reflexivity.
  split; reflexivity.
Defined.

Lemma get_or_create_group_found_witness :
  exists st',
    get_or_create_group Demo.world Demo.config None
      (Demo.start Demo.group_only_server ∅) = (Ok 3, st') /\
    world st' = Demo.group_only_server /\
    trace st' =
      ([] ++ [] ++ [EvGetObject "ExperimenterGroup" "name" "oauth"])%list /\
    count_events is_creation (trace st') = count_events is_creation [].
Proof.
  apply (get_or_create_group_found Demo.world Demo.config None
           (Demo.start Demo.group_only_server ∅) "oauth"
           Demo.group_only_server 3 Demo.group_only_server);
    reflexivity.
Defined.

Lemma get_or_create_group_created_witness :
  exists st',
    get_or_create_group Demo.world Demo.config (Some "guests")
      (Demo.start Demo.group_only_server ∅) = (Ok 100, st') /\
    world st' =
      Demo.Server ∅ (<["guests" := 100]> {[ "oauth" := 3 ]}) (100 + 1) 0
        false /\
    trace st' =
      ([] ++ [] ++
       [EvGetObject "ExperimenterGroup" "name" "guests";
        EvCreateGroup "guests" "rw----"])%list.
Proof.
  apply (get_or_create_group_created Demo.world Demo.config (Some "guests")
           (Demo.start Demo.group_only_server ∅) "guests"
           Demo.group_only_server Demo.group_only_server);
    reflexivity.
Defined.

Lemma callback_token_exchange_failure_witness :
  callback Demo.world Demo.config Faults.refused_request
    (Demo.start Demo.empty_server Demo.stored_session) =
  (Raise (CollaboratorError "invalid_grant"),
   State Demo.empty_server Demo.stored_session
     ([] ++
      [EvFetchToken "client" (SText "a-state")
         "https://idp.example.org/token" "secret" "stale-code"])).
Proof.
  apply (callback_token_exchange_failure Demo.world Demo.config
           Faults.refused_request
           (Demo.start Demo.empty_server Demo.stored_session));
    reflexivity.
Defined.

Lemma callback_userinfo_failure_witness :
  callback (Faults.world Faults.userinfo_down) Demo.config Demo.forged_request
    (Demo.start Demo.empty_server Demo.stored_session) =
  (Raise (CollaboratorError "userinfo failed"),
   State Demo.empty_server Demo.stored_session
     ([] ++
      [EvFetchToken "client" (SText "a-state")
         "https://idp.example.org/token" "secret" "good-code";
       EvUserinfo "client" (SText "a-state") "access-token"
         "https://idp.example.org/user"])).
Proof.
  apply (callback_userinfo_failure (Faults.world Faults.userinfo_down)
           Demo.config Demo.forged_request
           (Demo.start Demo.empty_server Demo.stored_session)
           "access-token" Demo.empty_server);
    reflexivity.
Defined.

Lemma login_incompatible_server_witness :
  login_with_session (Faults.world Faults.incompatible) Demo.config
    Demo.plain_request "session-of-alice" (Demo.start Demo.alice_server ∅) =
  (Raise (Exception_ ["Incompatible server"]),
   State Demo.alice_server ∅
     ([] ++ [EvCheckVersion (Connector 1 true) "OMERO.oauth"])).
Proof.
  apply (login_incompatible_server (Faults.world Faults.incompatible)
           Demo.config Demo.plain_request "session-of-alice"
           (Demo.start Demo.alice_server ∅));
    reflexivity.
Defined.

Lemma login_without_connection_witness :
  login_with_session (Faults.world Faults.no_connection) Demo.config
    Demo.plain_request "session-of-alice" (Demo.start Demo.alice_server ∅) =
  (Raise (Exception_ ["Failed to login with session %s"; "session-of-alice"]),
   State Demo.alice_server ∅
     ([] ++ [EvCheckVersion (Connector 1 true) "OMERO.oauth"] ++
      [EvCreateConnection (Connector 1 true) "OMERO.oauth"
         "session-of-alice" "session-of-alice" "0.0.0.0"])).
Proof.
  apply (login_without_connection (Faults.world Faults.no_connection)
           Demo.config Demo.plain_request "session-of-alice"
           (Demo.start Demo.alice_server ∅) Demo.alice_server);
    reflexivity.
Defined.

Lemma login_closes_connection_witness :
  exists mid,
    trace (snd (login_with_session Demo.world Demo.config Demo.plain_request
                  "session-of-alice" (Demo.start Demo.alice_server ∅))) =
      ([] ++ [EvCheckVersion (Connector 1 true) "OMERO.oauth"] ++
       [EvCreateConnection (Connector 1 true) "OMERO.oauth"
          "session-of-alice" "session-of-alice" "0.0.0.0"] ++
       mid ++ [EvConnClose 1%nat])%list /\
    Forall no_provider_no_admin mid /\
    session (snd (login_with_session Demo.world Demo.config
                    Demo.plain_request "session-of-alice"
                    (Demo.start Demo.alice_server ∅))) !! "connector" =
      Some (SConnector (Connector 1 true)).
Proof.
  apply (login_closes_connection Demo.world Demo.config Demo.plain_request
           "session-of-alice" (Demo.start Demo.alice_server ∅)
           Demo.alice_server 1%nat Demo.alice_server);
    reflexivity.
Defined.

Lemma test_login_connection_refused_witness :
  test_login (Faults.world Faults.refused) Demo.config Demo.plain_request
    "alice" (Demo.start Demo.alice_server ∅) =
  (Raise AssertionError,
   State Demo.alice_server ∅
     ([] ++ [EvAdminConnect "localhost" 4064 "root" "omero"])).
Proof.
  apply (test_login_connection_refused (Faults.world Faults.refused)
           Demo.config Demo.plain_request "alice"
           (Demo.start Demo.alice_server ∅));
    reflexivity.
Defined.

Lemma expand_template_without_braces_witness :
  _expand_template Demo.world Demo.config "OAUTH_USER_FIRSTNAME"
    Demo.login_only_userinfo = Ok "oauth".
Proof.
  apply (expand_template_without_braces Demo.world Demo.config
           "OAUTH_USER_FIRSTNAME" "oauth" Demo.login_only_userinfo);
    reflexivity.
Defined.

Lemma expand_template_needs_its_fields_witness :
  ((exists out,
       _expand_template Demo.world Demo.config "OAUTH_USER_EMAIL"
         Demo.login_only_userinfo = Ok out) <->
   Forall (fun f => is_Some (Demo.login_only_userinfo !! f)) ["mail"]) /\
  ((exists out,
       _expand_template Demo.world Demo.config "OAUTH_USER_EMAIL"
         Demo.login_only_userinfo = Ok out) \/
   (exists k, k ∈ ["mail"] /\ Demo.login_only_userinfo !! k = None /\
              _expand_template Demo.world Demo.config "OAUTH_USER_EMAIL"
                Demo.login_only_userinfo = Raise (KeyError k))).
Proof.
  apply (expand_template_needs_its_fields Demo.world Demo.config
           "OAUTH_USER_EMAIL" "{mail}" ["mail"] Demo.login_only_userinfo);
    reflexivity.
Defined.
